(** * knotsgoup: the node-version dashboard (src/App.tsx)

    A shallow embedding of the data pipeline of [App.tsx]: the Aggregator
    [processNodeData], the table derivation [sortedVersions], the two cache
    checks and the Historical Backfill [fetchHistoricalData].

    Conventions of the embedding.
    - A JavaScript [number] that holds an integer is a [Z].
    - A JavaScript string is a [string]; the operations used by the program
      ([includes], [replace], [toString], [parseInt]) are defined on it.
    - A plain JavaScript object used as a dictionary is the list of its own
      properties in creation order ([JsObject]); [Object_entries] and
      [Object_values] enumerate it in the order of the language (array
      indices first, ascending, then the other keys in creation order).
      The table of counts, an object literal indexed by strings that come
      from the network, is read and written through [ObjectLiteral], which
      accounts for the members inherited from [Object.prototype].
    - [localStorage] is a finite map from keys to strings.
    - The remote API is a function from the log of requests made so far to
      the response of the newest one; a missing response is a failed request,
      and the data of a response need not have the shape that the program
      expects ([Response]).
    - [await]ed delays are not modelled: they change no value. *)

From Stdlib Require Import ZArith QArith String Ascii List Lia Bool.
From Stdlib Require Import Sorting.Permutation Sorting.Sorted.
From Stdlib Require Import DecimalString DecimalZ.
From stdpp Require Import base option list sorting strings gmap.

Open Scope string_scope.
Open Scope list_scope.
Open Scope Z_scope.

(** ** JavaScript strings *)

Module JsString.

(** [s.includes(pat)] *)
Fixpoint includes (s pat : string) : bool :=
  if String.prefix pat s then true
  else match s with
       | EmptyString => false
       | String _ s' => includes s' pat
       end.

(** Drop the first [n] characters. *)
Fixpoint skip (n : nat) (s : string) : string :=
  match n, s with
  | O, _ => s
  | S n', String _ s' => skip n' s'
  | S _, EmptyString => EmptyString
  end.

(** [s.replace(pat, rep)] for a string pattern and a replacement without
    dollar patterns: only the first occurrence is replaced. *)
Fixpoint replace (s pat rep : string) : string :=
  if String.prefix pat s then rep +:+ skip (String.length pat) s
  else match s with
       | EmptyString => EmptyString
       | String c s' => String c (replace s' pat rep)
       end.

(** [s.replace(/\/$/, '')]: the pattern matches one slash at the very end
    of the input. *)
Fixpoint replace_trailing_slash (s : string) : string :=
  match s with
  | EmptyString => EmptyString
  | String c EmptyString => if Ascii.eqb c "/" then EmptyString else s
  | String c s' => String c (replace_trailing_slash s')
  end.

(** Truthiness of a string value that may be [null]. *)
Definition truthy (o : option string) : bool :=
  match o with
  | Some s => negb (String.eqb s "")
  | None => false
  end.

End JsString.

(** ** JavaScript numbers holding integers *)

Module JsNumber.

(** Truthiness of a number that may be [null]: zero is falsy. *)
Definition truthy (o : option Z) : bool :=
  match o with
  | Some z => negb (z =? 0)
  | None => false
  end.

(** [n.toString()] for an integer (decimal; magnitudes below 10^21). *)
Definition toString (z : Z) : string := NilZero.string_of_int (Z.to_int z).

Definition is_digit (c : ascii) : bool :=
  (48 <=? nat_of_ascii c)%nat && (nat_of_ascii c <=? 57)%nat.

Definition is_hex_digit (c : ascii) : bool :=
  is_digit c
  || ((65 <=? nat_of_ascii c)%nat && (nat_of_ascii c <=? 70)%nat)
  || ((97 <=? nat_of_ascii c)%nat && (nat_of_ascii c <=? 102)%nat).

Definition is_white (c : ascii) : bool :=
  let n := nat_of_ascii c in
  ((9 <=? n)%nat && (n <=? 13)%nat) || (n =? 32)%nat.

Definition digit_value (c : ascii) : Z :=
  let n := Z.of_nat (nat_of_ascii c) in
  if is_digit c then n - 48
  else if (n <=? 70) then n - 55 else n - 87.

Fixpoint skip_white (s : string) : string :=
  match s with
  | String c s' => if is_white c then skip_white s' else s
  | EmptyString => s
  end.

(** The value of the longest prefix of [s] made of digits accepted by
    [ok], in base [radix], starting from [acc]; [seen] tells whether a
    digit has been read. *)
Fixpoint read_digits (ok : ascii -> bool) (radix : Z) (s : string)
    (seen : bool) (acc : Z) : option Z :=
  match s with
  | String c s' =>
      if ok c then read_digits ok radix s' true (acc * radix + digit_value c)
      else if seen then Some acc else None
  | EmptyString => if seen then Some acc else None
  end.

(** After the sign: a [0x] or [0X] prefix selects base sixteen. *)
Definition read_unsigned (s : string) : option Z :=
  match s with
  | String c (String c' s') =>
      if Ascii.eqb c "0" && (Ascii.eqb c' "x" || Ascii.eqb c' "X")
      then read_digits is_hex_digit 16 s' false 0
      else read_digits is_digit 10 s false 0
  | _ => read_digits is_digit 10 s false 0
  end.

(** [parseInt(s)] without a radix; [None] is [NaN]. *)
Definition parseInt (s : string) : option Z :=
  match skip_white s with
  | String c s' =>
      if Ascii.eqb c "-" then Z.opp <$> read_unsigned s'
      else if Ascii.eqb c "+" then read_unsigned s'
      else read_unsigned (String c s')
  | EmptyString => None
  end.

Fixpoint all_digits (s : string) : bool :=
  match s with
  | EmptyString => true
  | String c s' => is_digit c && all_digits s'
  end.

End JsNumber.

(** ** JavaScript arrays *)

Module JsArray.

Section Sort.
Context {A : Type}.
Variable compareFn : A -> A -> Z.

(** Put [x], which stood before every element of [l], into the sorted
    list [l]: it goes after the elements that must precede it and before
    the ones it ties with. *)
Fixpoint insert (x : A) (l : list A) : list A :=
  match l with
  | [] => [x]
  | y :: l' => if compareFn x y <=? 0 then x :: y :: l'
               else y :: insert x l'
  end.

(** [l.sort(compareFn)]: the sort of the language is stable, so for a
    consistent comparator its result is the one of any stable sort. *)
Fixpoint sort (l : list A) : list A :=
  match l with
  | [] => []
  | x :: l' => insert x (sort l')
  end.
End Sort.

(** [l.slice(0, n)] *)
Definition slice0 {A : Type} (n : nat) (l : list A) : list A := take n l.

End JsArray.

(** ** Plain objects used as dictionaries *)

Module JsObject.

(** The own properties of an object, oldest first. *)
Definition t (V : Type) : Type := list (string * V).

Section Ops.
Context {V : Type}.

(** [o[k]]; [None] is [undefined]. *)
Fixpoint get (o : t V) (k : string) : option V :=
  match o with
  | [] => None
  | (k', v) :: o' => if String.eqb k' k then Some v else get o' k
  end.

(** [o[k] = v]: an existing property keeps its place, a new one is
    created last. *)
Fixpoint set (o : t V) (k : string) (v : V) : t V :=
  match o with
  | [] => [(k, v)]
  | (k', v') :: o' =>
      if String.eqb k' k then (k', v) :: o' else (k', v') :: set o' k v
  end.

(** The array index that a key denotes, if any: a canonical decimal
    numeral below 2^32 - 1. *)
Definition array_index (k : string) : option Z :=
  match k with
  | EmptyString => None
  | String "0" EmptyString => Some 0
  | String "0" _ => None
  | _ =>
      if JsNumber.all_digits k then
        match JsNumber.read_digits JsNumber.is_digit 10 k false 0 with
        | Some n => if n <? 2 ^ 32 - 1 then Some n else None
        | None => None
        end
      else None
  end.

Definition is_index (e : string * V) : bool :=
  match array_index (fst e) with Some _ => true | None => false end.

Definition index_of (e : string * V) : Z :=
  default 0 (array_index (fst e)).

(** [Object.entries(o)]: array indices in ascending order, then the
    other keys in creation order. *)
Definition Object_entries (o : t V) : list (string * V) :=
  JsArray.sort (fun a b => index_of a - index_of b) (List.filter is_index o)
  ++ List.filter (fun e => negb (is_index e)) o.

(** [Object.values(o)] *)
Definition Object_values (o : t V) : list V := map snd (Object_entries o).
End Ops.

End JsObject.

Import JsObject.

(** ** Objects written as [{}]

    An object literal inherits the members of [Object.prototype]. Reading a
    key that names one of them, on an object that has no property of its
    own of that name, gives the inherited member and not [undefined]; and
    [__proto__] is an accessor, whose setter ignores a value that is neither
    an object nor [null], so that assigning a number or a string to it
    creates no property. The program keeps its table of counts in such an
    object and indexes it by version strings that come from the network. *)

Module JsValue.

(** What a property of the table of counts may hold: a number, or the
    string that [+] makes of an inherited member, namely the text of the
    member [member] of [Object.prototype] followed by [ones] characters
    [1]. The text of a built-in function is left to the engine and is kept
    by name; it is never empty. *)
Inductive t :=
  | Num (n : Z)
  | Text (member : string) (ones : nat).

(** What reading a key gives. *)
Inductive lookup :=
  | Undefined
  | Own (v : t)
  | Inherited (member : string).

(** [(x || 0) + 1]: [undefined] and [0] give [1], another number its
    successor; a string that is not empty, a function and an object are
    truthy, and [+] appends the text [1] to their text. *)
Definition or_zero_plus_one (x : lookup) : t :=
  match x with
  | Undefined => Num 1
  | Own (Num n) => if n =? 0 then Num 1 else Num (n + 1)
  | Own (Text member ones) => Text member (S ones)
  | Inherited member => Text member 1
  end.

End JsValue.

Module ObjectLiteral.

(** The names of the members of [Object.prototype]. *)
Definition prototype_names : list string :=
  ["constructor"; "__defineGetter__"; "__defineSetter__"; "hasOwnProperty";
   "__lookupGetter__"; "__lookupSetter__"; "isPrototypeOf";
   "propertyIsEnumerable"; "toString"; "valueOf"; "__proto__";
   "toLocaleString"].

Definition inherits (k : string) : bool :=
  existsb (String.eqb k) prototype_names.

(** [o[k]] *)
Definition read (o : JsObject.t JsValue.t) (k : string) : JsValue.lookup :=
  match JsObject.get o k with
  | Some v => JsValue.Own v
  | None => if inherits k then JsValue.Inherited k else JsValue.Undefined
  end.

(** [o[k] = v] for a number or a string [v]: a property of the object's own
    is updated; otherwise the key [__proto__] reaches the setter, which
    ignores [v], and any other key creates a property. *)
Definition assign (o : JsObject.t JsValue.t) (k : string) (v : JsValue.t)
    : JsObject.t JsValue.t :=
  match JsObject.get o k with
  | Some _ => JsObject.set o k v
  | None => if String.eqb k "__proto__" then o else JsObject.set o k v
  end.

End ObjectLiteral.

(** ** The data of the crawler API *)

(** One entry of [NodeData]: a tuple of thirteen positions. The program
    reads position 1, the version string, only; the numbers of the other
    positions are carried as integers. *)
Record NodeRecord := {
  node_0 : Z;
  node_1 : string;
  node_2 : Z;
  node_3 : Z;
  node_4 : Z;
  node_5 : option string;
  node_6 : option string;
  node_7 : option string;
  node_8 : Z;
  node_9 : Z;
  node_10 : option string;
  node_11 : string;
  node_12 : string
}.

Record ApiResponse := {
  timestamp : Z;
  total_nodes : Z;
  latest_height : Z;
  nodes : JsObject.t NodeRecord
}.

(** One summary of the snapshot listing. *)
Record Snapshot := {
  url : string;
  snap_timestamp : Z;
  snap_total_nodes : Z;
  snap_latest_height : Z
}.

Record SnapshotResponse := {
  count : Z;
  next : option string;
  previous : option string;
  results : list Snapshot
}.

(** An element of [historicalData]. *)
Record HistoricalPoint := {
  point_timestamp : Z;
  point_knotsCount : Z
}.

(** The data of a response, or the value of a parsed text, wherever the
    program expects a listing page or a snapshot: one of the two, or a
    value that is neither. A value that has [nodes] has the other fields of
    [ApiResponse] too, and one that has [results] those of
    [SnapshotResponse]. *)
Inductive Response :=
  | ListingPage (r : SnapshotResponse)
  | SnapshotData (d : ApiResponse)
  | OtherData (total_nodes_member : option Z)
      (* another object, or a primitive: neither [nodes] nor [results];
         its [total_nodes], a number, when it has one *)
  | NullData.                   (* [null] *)

(** ** The state of the component *)

Record AppState := {
  nodeData : option Response;           (* [None]: [null] *)
  versionCounts : JsObject.t JsValue.t;
  knotsCount : Z;
  otherCount : Z;
  totalNodes : option Z;                (* [None]: [undefined] *)
  isLoading : bool;
  historicalData : list HistoricalPoint;
  isLoadingHistorical : bool
}.

Definition initialState : AppState :=
  {| nodeData := None; versionCounts := []; knotsCount := 0; otherCount := 0;
     totalNodes := Some 0; isLoading := true; historicalData := [];
     isLoadingHistorical := true |}.

Definition setNodeData (data : Response) (s : AppState) : AppState :=
  {| nodeData := match data with NullData => None | _ => Some data end;
     versionCounts := versionCounts s;
     knotsCount := knotsCount s; otherCount := otherCount s;
     totalNodes := totalNodes s; isLoading := isLoading s;
     historicalData := historicalData s;
     isLoadingHistorical := isLoadingHistorical s |}.

Definition setVersionCounts (c : JsObject.t JsValue.t) (s : AppState)
    : AppState :=
  {| nodeData := nodeData s; versionCounts := c;
     knotsCount := knotsCount s; otherCount := otherCount s;
     totalNodes := totalNodes s; isLoading := isLoading s;
     historicalData := historicalData s;
     isLoadingHistorical := isLoadingHistorical s |}.

Definition setKnotsCount (n : Z) (s : AppState) : AppState :=
  {| nodeData := nodeData s; versionCounts := versionCounts s;
     knotsCount := n; otherCount := otherCount s;
     totalNodes := totalNodes s; isLoading := isLoading s;
     historicalData := historicalData s;
     isLoadingHistorical := isLoadingHistorical s |}.

Definition setOtherCount (n : Z) (s : AppState) : AppState :=
  {| nodeData := nodeData s; versionCounts := versionCounts s;
     knotsCount := knotsCount s; otherCount := n;
     totalNodes := totalNodes s; isLoading := isLoading s;
     historicalData := historicalData s;
     isLoadingHistorical := isLoadingHistorical s |}.

Definition setTotalNodes (n : option Z) (s : AppState) : AppState :=
  {| nodeData := nodeData s; versionCounts := versionCounts s;
     knotsCount := knotsCount s; otherCount := otherCount s;
     totalNodes := n; isLoading := isLoading s;
     historicalData := historicalData s;
     isLoadingHistorical := isLoadingHistorical s |}.

Definition setIsLoading (b : bool) (s : AppState) : AppState :=
  {| nodeData := nodeData s; versionCounts := versionCounts s;
     knotsCount := knotsCount s; otherCount := otherCount s;
     totalNodes := totalNodes s; isLoading := b;
     historicalData := historicalData s;
     isLoadingHistorical := isLoadingHistorical s |}.

Definition setHistoricalData (h : list HistoricalPoint) (s : AppState)
    : AppState :=
  {| nodeData := nodeData s; versionCounts := versionCounts s;
     knotsCount := knotsCount s; otherCount := otherCount s;
     totalNodes := totalNodes s; isLoading := isLoading s;
     historicalData := h;
     isLoadingHistorical := isLoadingHistorical s |}.

Definition setIsLoadingHistorical (b : bool) (s : AppState) : AppState :=
  {| nodeData := nodeData s; versionCounts := versionCounts s;
     knotsCount := knotsCount s; otherCount := otherCount s;
     totalNodes := totalNodes s; isLoading := isLoading s;
     historicalData := historicalData s;
     isLoadingHistorical := b |}.

(** ** The Aggregator *)

(** The local variables of [processNodeData]. *)
Record Tally := {
  counts : JsObject.t JsValue.t;        (* [const counts = {}] *)
  knots : Z;
  others : Z
}.

(** The body of the [forEach] callback. *)
Definition tally_node (t : Tally) (node : NodeRecord) : Tally :=
  let version := node_1 node in
  let counts' :=
    ObjectLiteral.assign (counts t) version
      (JsValue.or_zero_plus_one (ObjectLiteral.read (counts t) version)) in
  if JsString.includes version "Knots"
  then {| counts := counts'; knots := knots t + 1; others := others t |}
  else {| counts := counts'; knots := knots t; others := others t + 1 |}.

Definition tally_nodes (data : ApiResponse) : Tally :=
  fold_left tally_node (Object_values (nodes data))
    {| counts := []; knots := 0; others := 0 |}.

Definition processNodeData (data : ApiResponse) (s : AppState) : AppState :=
  let t := tally_nodes data in
  setOtherCount (others t) (setKnotsCount (knots t) (setVersionCounts (counts t) s)).

(** The counting loop inside the Historical Backfill. *)
Definition count_knots (data : ApiResponse) : Z :=
  fold_left
    (fun knotsCount node =>
       let version := node_1 node in
       if JsString.includes version "Knots" then knotsCount + 1 else knotsCount)
    (Object_values (nodes data)) 0.

(** ** The table of versions *)

(** The display name of a version. *)
Definition display_name (version : string) : string :=
  JsString.replace_trailing_slash (JsString.replace version "/Satoshi:" "").

Definition sortedVersions (versionCounts : JsObject.t Z) : list (string * Z) :=
  map (fun '(version, count) => (display_name version, count))
    (JsArray.slice0 21
       (JsArray.sort (fun '(_, a) '(_, b) => b - a)
          (Object_entries versionCounts))).

(** ** The environment of the component: cache and network *)

(** A request, by the place of the program that issues it. *)
Inductive Request :=
  | GetLatest (u : string)      (* [fetchData]: the latest snapshot *)
  | GetListing (u : string)     (* a page of the snapshot listing *)
  | GetSnapshot (u : string).   (* the full snapshot of a summary *)

(** The remote API: the response to the newest request (the head of the
    log), given all the requests made before it. [None]: the request
    fails. *)
Definition Network : Type := list Request -> option Response.

Record World := {
  app : AppState;
  localStorage : gmap string string;
  requests : list Request
}.

Definition is_listing (r : Request) : bool :=
  match r with GetListing _ => true | _ => false end.

(** The number of listing pages requested so far. *)
Definition listing_fetches (w : World) : nat :=
  length (List.filter is_listing (requests w)).

(** How a computation ends: with a value, by throwing, or by running out of
    the steps granted to a loop. *)
Inductive Completion (A : Type) :=
  | Normal (a : A)
  | Throw
  | Timeout.
Arguments Normal {A} a.
Arguments Throw {A}.
Arguments Timeout {A}.

Definition M (A : Type) : Type := World -> Completion A * World.

#[global] Instance M_ret : MRet M := fun A a w => (Normal a, w).
#[global] Instance M_bind : MBind M := fun A B f m w =>
  match m w with
  | (Normal a, w') => f a w'
  | (Throw, w') => (Throw, w')
  | (Timeout, w') => (Timeout, w')
  end.

Definition throw {A : Type} : M A := fun w => (Throw, w).
Definition timeout {A : Type} : M A := fun w => (Timeout, w).

Definition getItem (k : string) : M (option string) :=
  fun w => (Normal (localStorage w !! k), w).

Definition setItem (k v : string) : M unit :=
  fun w => (Normal tt,
            {| app := app w; localStorage := <[k := v]> (localStorage w);
               requests := requests w |}).

(** A state setter of the component. *)
Definition setState (f : AppState -> AppState) : M unit :=
  fun w => (Normal tt,
            {| app := f (app w); localStorage := localStorage w;
               requests := requests w |}).

(** The value of an optional result, throwing when there is none. *)
Definition orThrow {A : Type} (o : option A) : M A :=
  match o with Some a => mret a | None => throw end.

(** The condition under which a cache entry is used:
    [cachedData && cachedTimestamp
     && (currentTime - parseInt(cachedTimestamp)) < CACHE_DURATION]. *)
Definition cache_valid (cachedData cachedTimestamp : option string)
    (currentTime CACHE_DURATION : Z) : bool :=
  JsString.truthy cachedData && JsString.truthy cachedTimestamp
  && match JsNumber.parseInt (default "" cachedTimestamp) with
     | Some t => currentTime - t <? CACHE_DURATION
     | None => false
     end.

Definition fetchData_CACHE_DURATION : Z := 21 * 60 * 1000.
Definition fetchHistoricalData_CACHE_DURATION : Z := 24 * 60 * 60 * 1000.
Definition ONE_WEEK_MS : Z := 7 * 24 * 60 * 60 * 1000.
Definition MAX_API_CALLS : Z := 12.

(** The callback of [snapshots.filter] with the variable [lastTimestamp] it
    updates: the kept summaries and the final [lastTimestamp]. *)
Fixpoint filter_snapshots (lastTimestamp : option Z) (snapshots : list Snapshot)
    : list Snapshot * option Z :=
  match snapshots with
  | [] => ([], lastTimestamp)
  | snapshot :: rest =>
      if negb (JsNumber.truthy lastTimestamp) then
        let '(kept, last) := filter_snapshots (Some (snap_timestamp snapshot)) rest in
        (snapshot :: kept, last)
      else
        let timeDiff := Z.abs (snap_timestamp snapshot - default 0 lastTimestamp) in
        if ONE_WEEK_MS / 1000 <=? timeDiff then
          let '(kept, last) := filter_snapshots (Some (snap_timestamp snapshot)) rest in
          (snapshot :: kept, last)
        else filter_snapshots lastTimestamp rest
  end.

(** The local variables of the loop of [fetchHistoricalData]. *)
Record Loop := {
  loop_historicalData : list HistoricalPoint;
  nextUrl : option string;
  lastTimestamp : option Z;
  apiCallCount : Z
}.

(** [data.total_nodes]: [undefined] where the value has no such member;
    reading a member of [null] throws. *)
Definition member_total_nodes (data : Response) : M (option Z) :=
  match data with
  | SnapshotData d => mret (Some (total_nodes d))
  | ListingPage _ => mret None
  | OtherData n => mret n
  | NullData => throw
  end.

(** [processNodeData(data)] on what was received: [Object.values] of
    missing [nodes] throws before any state is set. The result is the
    snapshot that [data] is. *)
Definition call_processNodeData (data : Response) : M ApiResponse :=
  match data with
  | SnapshotData d => setState (processNodeData d);; mret d
  | _ => throw
  end.

Section Pipelines.

(** [JSON.stringify] and [JSON.parse] at the two types the program stores;
    a failed parse throws. *)
Variable JSON_stringify_data : ApiResponse -> string.
Variable JSON_parse_data : string -> option Response.
Variable JSON_stringify_points : list HistoricalPoint -> string.
Variable JSON_parse_points : string -> option (list HistoricalPoint).

Variable net : Network.

(** [axios.get]: the request is logged, then answered by the network. *)
Definition axios_get (r : Request) : M Response :=
  fun w =>
    let log := r :: requests w in
    let w' := {| app := app w; localStorage := localStorage w;
                 requests := log |} in
    match net log with
    | Some resp => (Normal resp, w')
    | None => (Throw, w')
    end.

(** Reading [response.data.results.length] of something that is not a
    listing page throws, and so does [Object.values] of missing [nodes]. *)
Definition get_listing (u : string) : M SnapshotResponse :=
  resp ← axios_get (GetListing u);
  match resp with ListingPage r => mret r | _ => throw end.

Definition get_snapshot (u : string) : M ApiResponse :=
  resp ← axios_get (GetSnapshot u);
  match resp with SnapshotData d => mret d | _ => throw end.

(** *** The Snapshot Fetcher *)

Definition fetchData_try (currentTime : Z) : M unit :=
  setState (setIsLoading true);;
  cachedData ← getItem "nodeData";
  cachedTimestamp ← getItem "nodeDataTimestamp";
  if cache_valid cachedData cachedTimestamp currentTime fetchData_CACHE_DURATION
  then
    parsedData ← orThrow (JSON_parse_data (default "" cachedData));
    setState (setNodeData parsedData);;
    total_nodes ← member_total_nodes parsedData;
    setState (setTotalNodes total_nodes);;
    _ ← call_processNodeData parsedData;
    mret tt
  else
    data ← axios_get (GetLatest "https://bitnodes.io/api/v1/snapshots/latest/");
    setState (setNodeData data);;
    total_nodes ← member_total_nodes data;
    setState (setTotalNodes total_nodes);;
    data ← call_processNodeData data;
    setItem "nodeData" (JSON_stringify_data data);;
    setItem "nodeDataTimestamp" (JsNumber.toString currentTime).

(** [try { ... } catch { log } finally { setIsLoading(false) }] *)
Definition fetchData (currentTime : Z) (w : World) : World :=
  snd (setState (setIsLoading false) (snd (fetchData_try currentTime w))).

(** *** The Historical Backfill *)

(** The [for] loop over the kept summaries. *)
Fixpoint process_snapshots (filteredSnapshots : list Snapshot)
    (historicalData : list HistoricalPoint) : M (list HistoricalPoint) :=
  match filteredSnapshots with
  | [] => mret historicalData
  | snapshot :: rest =>
      data ← get_snapshot (url snapshot);
      let knotsCount := count_knots data in
      process_snapshots rest
        (historicalData ++
           [{| point_timestamp := snap_timestamp snapshot;
               point_knotsCount := knotsCount |}])
  end.

(** The [while] loop, run for at most [steps] iterations. *)
Fixpoint pages_loop (steps : nat) (l : Loop) : M (list HistoricalPoint) :=
  if JsString.truthy (nextUrl l) && (apiCallCount l <? MAX_API_CALLS) then
    match steps with
    | O => timeout
    | S steps' =>
        let apiCallCount' := apiCallCount l + 1 in
        response ← get_listing (default "" (nextUrl l));
        let snapshots := results response in
        let '(filteredSnapshots, lastTimestamp') :=
          filter_snapshots (lastTimestamp l) snapshots in
        historicalData ← process_snapshots filteredSnapshots
                           (loop_historicalData l);
        pages_loop steps'
          {| loop_historicalData := historicalData;
             nextUrl := next response;
             lastTimestamp := lastTimestamp';
             apiCallCount := apiCallCount' |}
    end
  else mret (loop_historicalData l).

Definition fetchHistoricalData_try (currentTime : Z) : M unit :=
  setState (setIsLoadingHistorical true);;
  cachedData ← getItem "knotsgoup_snapshots";
  cachedTimestamp ← getItem "knotsgoup_snapshots_timestamp";
  if cache_valid cachedData cachedTimestamp currentTime
       fetchHistoricalData_CACHE_DURATION
  then
    parsedData ← orThrow (JSON_parse_points (default "" cachedData));
    setState (setHistoricalData parsedData);;
    setState (setIsLoadingHistorical false)
  else
    historicalData ←
      pages_loop (Z.to_nat MAX_API_CALLS)
        {| loop_historicalData := [];
           nextUrl := Some "https://bitnodes.io/api/v1/snapshots/";
           lastTimestamp := None;
           apiCallCount := 0 |};
    let sortedData :=
      JsArray.sort (fun a b => point_timestamp a - point_timestamp b)
        historicalData in
    setItem "knotsgoup_snapshots" (JSON_stringify_points sortedData);;
    setItem "knotsgoup_snapshots_timestamp" (JsNumber.toString currentTime);;
    setState (setHistoricalData sortedData).

(** [try { ... } catch { log } finally { setIsLoadingHistorical(false) }] *)
Definition fetchHistoricalData (currentTime : Z) (w : World) : World :=
  snd (setState (setIsLoadingHistorical false)
         (snd (fetchHistoricalData_try currentTime w))).

End Pipelines.

(** ** The rendering of a percentage *)

Module JsDouble.

(** A double: a finite value, known by the exact value of the expression
    that produced it (the rounding of finite values is not modelled), an
    infinity, or [NaN]. *)
Inductive t :=
  | Fin (q : Q)
  | Inf (negative : bool)
  | NaN.

(** [a / b] for two integers. *)
Definition div (a b : Z) : t :=
  if b =? 0 then
    if a =? 0 then NaN else Inf (a <? 0)
  else Fin (Qdiv (inject_Z a) (inject_Z b)).

(** [x * k] for an integer [k]. *)
Definition mul (x : t) (k : Z) : t :=
  match x with
  | Fin q => Fin (Qmult q (inject_Z k))
  | Inf s => if k =? 0 then NaN else Inf (xorb s (k <? 0))
  | NaN => NaN
  end.

(** What [toFixed] returns: the decimal text of a finite value rounded to
    a number of fraction digits, or the name of a value that is not
    finite. *)
Inductive text :=
  | Decimal (q : Q) (fractionDigits : nat)
  | Literal (s : string).

(** [x.toFixed(fractionDigits)] *)
Definition toFixed (x : t) (fractionDigits : nat) : text :=
  match x with
  | Fin q => Decimal q fractionDigits
  | Inf false => Literal "Infinity"
  | Inf true => Literal "-Infinity"
  | NaN => Literal "NaN"
  end.

End JsDouble.

(** The percentage cell of a table row,
    [((count / totalNodes) * 100).toFixed(2)]; the cell shows it followed by
    a percent sign. *)
Definition percentage (count totalNodes : Z) : JsDouble.text :=
  JsDouble.toFixed (JsDouble.mul (JsDouble.div count totalNodes) 100) 2.

(** A text that shows a number: neither [NaN] nor an infinity. *)
Definition shows_number (x : JsDouble.text) : bool :=
  match x with
  | JsDouble.Decimal _ _ => true
  | JsDouble.Literal _ => false
  end.

(** ** A reference JSON codec for the cached series

    The text that [JSON.stringify] gives for an array of points, and a reader
    of exactly that text. The pipelines do not depend on it: they take the
    codec as a parameter. It serves to run them on concrete inputs. *)

Module Json.

Definition quote : string := String "034" EmptyString.

Definition member (name : string) (value : Z) : string :=
  quote +:+ name +:+ quote +:+ ":" +:+ JsNumber.toString value.

Definition point_text (p : HistoricalPoint) : string :=
  "{" +:+ member "timestamp" (point_timestamp p) +:+ ","
      +:+ member "knotsCount" (point_knotsCount p) +:+ "}".

Fixpoint points_text (l : list HistoricalPoint) : string :=
  match l with
  | [] => ""
  | [p] => point_text p
  | p :: l' => point_text p +:+ "," +:+ points_text l'
  end.

Definition stringify_points (l : list HistoricalPoint) : string :=
  "[" +:+ points_text l +:+ "]".

(** The rest of [s] after the prefix [p]. *)
Definition expect (p s : string) : option string :=
  if String.prefix p s then Some (JsString.skip (String.length p) s) else None.

(** The longest prefix of digits, with an optional sign, and the rest. *)
Fixpoint span_digits (s : string) : string * string :=
  match s with
  | String c s' =>
      if JsNumber.is_digit c then
        let '(ds, rest) := span_digits s' in (String c ds, rest)
      else (EmptyString, s)
  | EmptyString => (EmptyString, EmptyString)
  end.

Definition read_int (s : string) : option (Z * string) :=
  match s with
  | String c s' =>
      if Ascii.eqb c "-" then
        let '(ds, rest) := span_digits s' in
        z ← JsNumber.read_digits JsNumber.is_digit 10 ds false 0;
        Some (- z, rest)
      else
        let '(ds, rest) := span_digits s in
        z ← JsNumber.read_digits JsNumber.is_digit 10 ds false 0;
        Some (z, rest)
  | EmptyString => None
  end.

Definition read_member (name : string) (s : string) : option (Z * string) :=
  s1 ← expect (quote +:+ name +:+ quote +:+ ":") s;
  read_int s1.

Definition read_point (s : string) : option (HistoricalPoint * string) :=
  s1 ← expect "{" s;
  '(t, s2) ← read_member "timestamp" s1;
  s3 ← expect "," s2;
  '(k, s4) ← read_member "knotsCount" s3;
  s5 ← expect "}" s4;
  Some ({| point_timestamp := t; point_knotsCount := k |}, s5).

Fixpoint read_points (steps : nat) (s : string) : option (list HistoricalPoint) :=
  match steps with
  | O => None
  | S steps' =>
      '(p, s1) ← read_point s;
      if String.eqb s1 "]" then Some [p]
      else s2 ← expect "," s1;
           l ← read_points steps' s2;
           Some (p :: l)
  end.

Definition parse_points (s : string) : option (list HistoricalPoint) :=
  s1 ← expect "[" s;
  if String.eqb s1 "]" then Some [] else read_points (String.length s1) s1.

End Json.

(** ** The vocabulary of the properties *)

(** Two elements in the order of an integer key. *)
Definition key_le {A : Type} (key : A -> Z) (a b : A) : Prop := key a <= key b.

(** A computation left the component and the cache as they were. *)
Definition untouched (w w' : World) : Prop :=
  app w' = app w /\ localStorage w' = localStorage w.

(** The world after the component's state has been changed by [f]. *)
Definition with_app (f : AppState -> AppState) (w : World) : World :=
  {| app := f (app w); localStorage := localStorage w; requests := requests w |}.

(** The world after the historical series [h] has been cached at [now]. *)
Definition with_series (text : string) (now : Z) (w : World) : World :=
  {| app := app w;
     localStorage :=
       <["knotsgoup_snapshots_timestamp" := JsNumber.toString now]>
         (<["knotsgoup_snapshots" := text]> (localStorage w));
     requests := requests w |}.

(** The variables of the loop of [fetchHistoricalData] when it starts. *)
Definition loop_start : Loop :=
  {| loop_historicalData := [];
     nextUrl := Some "https://bitnodes.io/api/v1/snapshots/";
     lastTimestamp := None;
     apiCallCount := 0 |}.

(** The comparator of the final sort. *)
Definition by_timestamp (a b : HistoricalPoint) : Z :=
  point_timestamp a - point_timestamp b.

(** A listing that never ends: every request for a page is answered with a
    page that names a next one. *)
Definition endless_listing (net : Network) : Prop :=
  forall log u, exists page,
    net (GetListing u :: log) = Some (ListingPage page)
    /\ JsString.truthy (next page) = true.

(** Every request for a snapshot is answered with the snapshot. *)
Definition snapshots_served (net : Network) : Prop :=
  forall log u, exists data, net (GetSnapshot u :: log) = Some (SnapshotData data).

(** The listing pages that a log of requests was answered with, oldest
    first. *)
Fixpoint listing_pages (net : Network) (log : list Request)
    : list SnapshotResponse :=
  match log with
  | [] => []
  | r :: log' =>
      listing_pages net log'
      ++ match r, net (r :: log') with
         | GetListing _, Some (ListingPage page) => [page]
         | _, _ => []
         end
  end.

(** The timestamps of the summaries of a sequence of pages, in the order of
    the listing. *)
Definition listed_timestamps (pages : list SnapshotResponse) : list Z :=
  map snap_timestamp (concat (map results pages)).

(** Timestamps from the newest to the oldest. *)
Definition newest_first (timestamps : list Z) : Prop :=
  StronglySorted (fun a b => b <= a) timestamps.

(** The second point is at least one week (604800 seconds) after the
    first. *)
Definition week_apart (p q : HistoricalPoint) : Prop :=
  point_timestamp p + 604800 <= point_timestamp q.

(** A series in ascending order with at least one week between any two of
    its points, hence between consecutive ones. *)
Definition week_spaced (series : list HistoricalPoint) : Prop :=
  StronglySorted week_apart series.

(** The same, decided on consecutive points. *)
Fixpoint week_spacedb (series : list HistoricalPoint) : bool :=
  match series with
  | p :: (q :: _) as rest =>
      (point_timestamp p + 604800 <=? point_timestamp q) && week_spacedb rest
  | _ => true
  end.

(** The timestamps that fall by a week or more from each one to the next. *)
Definition falling_by_weeks (timestamps : list Z) : Prop :=
  StronglySorted (fun a b => b + 604800 <= a) timestamps.

(** Whether the filter keeps a summary, given the timestamp it kept last. *)
Definition keeps (lastTimestamp : option Z) (snapshot : Snapshot) : bool :=
  negb (JsNumber.truthy lastTimestamp)
  || (604800 <=? Z.abs (snap_timestamp snapshot - default 0 lastTimestamp)).

(** The log continues [old] with requests that were all answered. *)
Inductive answered_since (net : Network) (old : list Request)
    : list Request -> Prop :=
  | answered_none : answered_since net old old
  | answered_more (r : Request) (log : list Request) :
      answered_since net old log ->
      is_Some (net (r :: log)) ->
      answered_since net old (r :: log).

(** The number that reading the decimal digits [d] gives, starting from
    [acc]. *)
Fixpoint digits_acc (d : Decimal.uint) (acc : Z) : Z :=
  match d with
  | Decimal.Nil => acc
  | Decimal.D0 l => digits_acc l (acc * 10 + 0)
  | Decimal.D1 l => digits_acc l (acc * 10 + 1)
  | Decimal.D2 l => digits_acc l (acc * 10 + 2)
  | Decimal.D3 l => digits_acc l (acc * 10 + 3)
  | Decimal.D4 l => digits_acc l (acc * 10 + 4)
  | Decimal.D5 l => digits_acc l (acc * 10 + 5)
  | Decimal.D6 l => digits_acc l (acc * 10 + 6)
  | Decimal.D7 l => digits_acc l (acc * 10 + 7)
  | Decimal.D8 l => digits_acc l (acc * 10 + 8)
  | Decimal.D9 l => digits_acc l (acc * 10 + 9)
  end.

(** The sum of a list of counts. *)
Definition sum_counts (l : list Z) : Z := fold_right Z.add 0 l.

(** The number of records of a list that carry a given version. *)
Definition records_of (version : string) (records : list NodeRecord) : Z :=
  Z.of_nat (length (List.filter (fun node => String.eqb (node_1 node) version) records)).

(** The number of records of a list whose version contains the marker. *)
Definition marked (records : list NodeRecord) : Z :=
  Z.of_nat (length (List.filter (fun node => JsString.includes (node_1 node) "Knots") records)).

(** The last character of a string is a slash. *)
Fixpoint ends_with_slash (s : string) : bool :=
  match s with
  | EmptyString => false
  | String c EmptyString => Ascii.eqb c "/"
  | String _ s' => ends_with_slash s'
  end.

(** The count of the second row is not above the count of the first. *)
Definition by_count_desc (r1 r2 : string * Z) : Prop := snd r2 <= snd r1.

(** ** The first version of the component

    The first [App.tsx] of the repository: [fetchData] asks the network every
    time and aggregates in place, and the table keeps the raw version
    strings. *)

Module FirstVersion.

Section Pipeline.
Variable net : Network.

Definition fetchData_try : M unit :=
  data ← axios_get net (GetLatest "https://bitnodes.io/api/v1/snapshots/latest/");
  setState (setNodeData data);;
  total_nodes ← member_total_nodes data;
  setState (setTotalNodes total_nodes);;
  match data with
  | SnapshotData data =>
      let '(counts, knots, others) :=
        fold_left
          (fun '(counts, knots, others) node =>
             let version := node_1 node in
             let counts :=
               ObjectLiteral.assign counts version
                 (JsValue.or_zero_plus_one (ObjectLiteral.read counts version)) in
             if JsString.includes version "Knots"
             then (counts, knots + 1, others)
             else (counts, knots, others + 1))
          (Object_values (nodes data)) ([], 0, 0) in
      setState (setVersionCounts counts);;
      setState (setKnotsCount knots);;
      setState (setOtherCount others)
  | _ => throw      (* [Object.values] of missing [nodes] *)
  end.

(** [try { ... } catch { log }] *)
Definition fetchData (w : World) : World := snd (fetchData_try w).

End Pipeline.

Definition sortedVersions (versionCounts : JsObject.t Z) : list (string * Z) :=
  JsArray.slice0 21
    (JsArray.sort (fun '(_, a) '(_, b) => b - a)
       (Object_entries versionCounts)).

End FirstVersion.

(** ** More vocabulary *)

Definition is_snapshot (r : Request) : bool :=
  match r with GetSnapshot _ => true | _ => false end.

(** The number of full snapshots requested so far. *)
Definition snapshot_fetches (w : World) : nat :=
  length (List.filter is_snapshot (requests w)).

(** The addresses of the listing pages requested in a log, oldest first. *)
Fixpoint listing_urls (log : list Request) : list string :=
  match log with
  | [] => []
  | GetListing u :: log' => listing_urls log' ++ [u]
  | _ :: log' => listing_urls log'
  end.

(** Two timestamps a week or more from each other, in either direction. *)
Definition week_or_more (a b : Z) : Prop := 604800 <= Z.abs (b - a).

(** The timestamp of the last summary of a list, or [d] when it is empty. *)
Fixpoint last_timestamp (d : option Z) (kept : list Snapshot) : option Z :=
  match kept with
  | [] => d
  | snapshot :: kept' => last_timestamp (Some (snap_timestamp snapshot)) kept'
  end.

(** The addresses that the loop requests when it is answered with [pages]:
    its [nextUrl], then the [next] of each page but the last. *)
Fixpoint followed (nextUrl : option string) (pages : list SnapshotResponse)
    : list string :=
  match pages with
  | [] => []
  | page :: pages' => default "" nextUrl :: followed (next page) pages'
  end.

(** The [nextUrl] of the loop after these pages. *)
Fixpoint next_after (nextUrl : option string) (pages : list SnapshotResponse)
    : option string :=
  match pages with
  | [] => nextUrl
  | page :: pages' => next_after (next page) pages'
  end.

(** The point was made from the summary: it has its timestamp, and its count
    is the marker count of a snapshot that the network gave at the address
    of the summary. *)
Definition point_from (net : Network) (p : HistoricalPoint) (s : Snapshot)
    : Prop :=
  point_timestamp p = snap_timestamp s
  /\ exists log data,
       net (GetSnapshot (url s) :: log) = Some (SnapshotData data)
       /\ point_knotsCount p = count_knots data.

(** Points in ascending order of their timestamps. *)
Definition ascending (series : list HistoricalPoint) : Prop :=
  StronglySorted (key_le point_timestamp) series.

(** The world after a snapshot has been cached at [now]. *)
Definition with_snapshot (text : string) (now : Z) (w : World) : World :=
  {| app := app w;
     localStorage :=
       <["nodeDataTimestamp" := JsNumber.toString now]>
         (<["nodeData" := text]> (localStorage w));
     requests := requests w |}.

(** What the Snapshot Fetcher shows of a snapshot. *)
Definition show_snapshot (data : ApiResponse) (s : AppState) : AppState :=
  processNodeData data
    (setTotalNodes (Some (total_nodes data)) (setNodeData (SnapshotData data) s)).

(** What the Snapshot Fetcher shows of whatever it received, up to the
    point where it throws if it does: of [null] it stores the value; of a
    value without [nodes] it stores the value and its [total_nodes]. *)
Definition show_received (data : Response) (s : AppState) : AppState :=
  match data with
  | SnapshotData d => show_snapshot d s
  | ListingPage _ => setTotalNodes None (setNodeData data s)
  | OtherData n => setTotalNodes n (setNodeData data s)
  | NullData => setNodeData NullData s
  end.

(** Whether the Snapshot Fetcher gets through what it received. *)
Definition is_snapshot_data (data : Response) : bool :=
  match data with SnapshotData _ => true | _ => false end.

(** The strings seen so far, with [v] added last when it is new. *)
Definition seen_add (seen : list string) (v : string) : list string :=
  if existsb (String.eqb v) seen then seen else seen ++ [v].

(** The distinct strings of a list, each at the place of its first
    occurrence. *)
Definition first_occurrences (l : list string) : list string :=
  fold_left seen_add l [].



(** One more record of [version] in a table of integer counts. *)
Definition count_version (table : JsObject.t Z) (version : string)
    : JsObject.t Z :=
  JsObject.set table version (default 0 (JsObject.get table version) + 1).

(** The table of integer counts of a list of records: one key for each
    distinct version, with the number of its records. *)
Definition version_table (records : list NodeRecord) : JsObject.t Z :=
  fold_left (fun table node => count_version table (node_1 node)) records [].


(** What the counts of the Aggregator hold for a version after the records
    of a list: nothing for [__proto__] and for a version that no record
    carries; otherwise the number of its records, as a number, or, for a
    version that names a function of [Object.prototype], as the length of
    the run of characters [1] after the text of that function. *)
Definition counted (records : list NodeRecord) (version : string)
    : option JsValue.t :=
  let n := records_of version records in
  if String.eqb version "__proto__" || (n =? 0) then None
  else if ObjectLiteral.inherits version
       then Some (JsValue.Text version (Z.to_nat n))
       else Some (JsValue.Num n).

(** The part of the component that the Snapshot Fetcher writes. *)
Definition snapshot_side (s : AppState)
    : option Response * JsObject.t JsValue.t * Z * Z * option Z * bool :=
  (nodeData s, versionCounts s, knotsCount s, otherCount s, totalNodes s,
   isLoading s).

(** The part of the component that the Historical Backfill writes. *)
Definition historical_side (s : AppState) : list HistoricalPoint * bool :=
  (historicalData s, isLoadingHistorical s).

(** ** Inputs on which the pipelines are run *)

Module Examples.

Definition node (version : string) : NodeRecord :=
  {| node_0 := 70016; node_1 := version; node_2 := 1700000000; node_3 := 1033;
     node_4 := 800000; node_5 := None; node_6 := None; node_7 := None;
     node_8 := 0; node_9 := 0; node_10 := None; node_11 := "AS0";
     node_12 := "" |}.

(** A snapshot with five nodes, two of them with the marker. *)
Definition snapshot_at (t : Z) : ApiResponse :=
  {| timestamp := t; total_nodes := 5; latest_height := 800000;
     nodes := [("1.2.3.4:8333", node "/Satoshi:24.0.1/");
               ("5.6.7.8:8333", node "/Satoshi:27.1.0/Knots:20240801/");
               ("[2001:db8::1]:8333", node "/Satoshi:24.0.1/");
               ("9.9.9.9:8333", node "/Satoshi:26.0.0/Knots:20231115/");
               ("example.onion:8333", node "/btcwire:0.5.0/")] |}.

Definition summary (t : Z) : Snapshot :=
  {| url := "https://bitnodes.io/api/v1/snapshots/" +:+ JsNumber.toString t +:+ "/";
     snap_timestamp := t; snap_total_nodes := 5; snap_latest_height := 800000 |}.

Definition page (next : option string) (timestamps : list Z) : SnapshotResponse :=
  {| count := 1000; next := next; previous := None;
     results := map summary timestamps |}.

Definition emptyWorld : World :=
  {| app := initialState; localStorage := ∅; requests := [] |}.

(** A listing that never ends: every page has one summary, a week older
    than the one of the page before, and a next page. *)
Definition endless : Network := fun log =>
  match log with
  | GetListing _ :: _ =>
      Some (ListingPage
              (page (Some "https://bitnodes.io/api/v1/snapshots/?page=2")
                 [1700000000 - 604800 * Z.of_nat (length log)]))
  | GetSnapshot _ :: _ => Some (SnapshotData (snapshot_at 1700000000))
  | _ => None
  end.

(** One page of ten summaries a day apart, newest first. *)
Definition ten_days : Network := fun log =>
  match log with
  | GetListing _ :: _ =>
      Some (ListingPage
              (page None
                 (map (fun i => 1700000000 - 86400 * Z.of_nat i) (seq 0 10))))
  | GetSnapshot _ :: _ => Some (SnapshotData (snapshot_at 1700000000))
  | _ => None
  end.

(** One page whose second and third summaries carry the timestamp zero. *)
Definition epoch : Network := fun log =>
  match log with
  | GetListing _ :: _ => Some (ListingPage (page None [604800; 0; 0]))
  | GetSnapshot _ :: _ => Some (SnapshotData (snapshot_at 0))
  | _ => None
  end.

(** The same with strictly falling timestamps: a day before the epoch. *)
Definition before_epoch : Network := fun log =>
  match log with
  | GetListing _ :: _ => Some (ListingPage (page None [604800; 0; -86400]))
  | GetSnapshot _ :: _ => Some (SnapshotData (snapshot_at 0))
  | _ => None
  end.

(** One page of three summaries a week apart; the request for the third
    snapshot fails. *)
Definition broken : Network := fun log =>
  match log with
  | GetListing _ :: _ =>
      Some (ListingPage (page None [1701209600; 1700604800; 1700000000]))
  | GetSnapshot _ :: log' =>
      if (length log' <? 3)%nat then Some (SnapshotData (snapshot_at 1700000000))
      else None
  | _ => None
  end.

Definition cached_points : list HistoricalPoint :=
  [{| point_timestamp := 1700000000; point_knotsCount := 2 |};
   {| point_timestamp := 1700604800; point_knotsCount := 3 |}].

(** A world whose cache holds [cached_points], stored at time [T]. *)
Definition cachedWorld (T : Z) : World :=
  {| app := initialState;
     localStorage :=
       <["knotsgoup_snapshots" := Json.stringify_points cached_points]>
         (<["knotsgoup_snapshots_timestamp" := JsNumber.toString T]> ∅);
     requests := [] |}.

(** Thirty versions, with counts that tie. *)
Definition thirty_versions : JsObject.t Z :=
  map (fun i => ("/Satoshi:" +:+ JsNumber.toString (Z.of_nat i) +:+ "/",
                 Z.of_nat (i mod 4)))
    (seq 0 30).

(** The latest snapshot is served. *)
Definition latest : Network := fun log =>
  match log with
  | GetLatest _ :: _ => Some (SnapshotData (snapshot_at 1700000000))
  | _ => None
  end.

(** No request is answered. *)
Definition down : Network := fun _ => None.

(** Every request is answered with an object that has [total_nodes] and
    nothing else. *)
Definition without_nodes : Network := fun _ => Some (OtherData (Some 7)).



(** A codec for the snapshots [snapshot_at t], which their timestamp
    determines. *)
Definition stringify_snapshot (d : ApiResponse) : string :=
  JsNumber.toString (timestamp d).

Definition parse_snapshot (s : string) : option Response :=
  (fun t => SnapshotData (snapshot_at t)) <$> JsNumber.parseInt s.

(** A world whose cache holds the snapshot of 1700000000, stored at time
    [T]. *)
Definition snapshotWorld (T : Z) : World :=
  {| app := initialState;
     localStorage :=
       <["nodeData" := stringify_snapshot (snapshot_at 1700000000)]>
         (<["nodeDataTimestamp" := JsNumber.toString T]> ∅);
     requests := [] |}.

(** Two pages: the first names the second, the second is the last. *)
Definition two_pages : Network := fun log =>
  match log with
  | GetListing u :: _ =>
      if String.eqb u "https://bitnodes.io/api/v1/snapshots/"
      then Some (ListingPage
                   (page (Some "https://bitnodes.io/api/v1/snapshots/?page=2")
                      [1700000000; 1699913600; 1699395200]))
      else Some (ListingPage (page None [1699308800; 1698790400; 1698704000]))
  | GetSnapshot _ :: _ => Some (SnapshotData (snapshot_at 1700000000))
  | _ => None
  end.

End Examples.
(** * Properties *)

(** ** Sorting *)

Section SortFacts.
Context {A : Type}.
Variable compareFn : A -> A -> Z.

Lemma insert_Permutation (x : A) (l : list A) :
  Permutation (JsArray.insert compareFn x l) (x :: l).
Proof.
  induction l as [|y l IH]; simpl; [reflexivity|].
  destruct (compareFn x y <=? 0); [reflexivity|].
  rewrite IH. apply perm_swap.
Qed.

Lemma sort_Permutation (l : list A) : Permutation (JsArray.sort compareFn l) l.
Proof.
  induction l as [|x l IH]; simpl; [reflexivity|].
  rewrite insert_Permutation. now constructor.
Qed.

Lemma sort_length (l : list A) : length (JsArray.sort compareFn l) = length l.
Proof. apply Permutation_length, sort_Permutation. Qed.

(** A comparator that orders by an integer key. *)
Variable key : A -> Z.
Hypothesis compareFn_key : forall a b, compareFn a b <= 0 <-> key a <= key b.

Lemma insert_sorted (x : A) (l : list A) :
  StronglySorted (key_le key) l -> StronglySorted (key_le key) (JsArray.insert compareFn x l).
Proof.
  induction 1 as [|y l Hl IH Hy]; simpl.
  - repeat constructor.
  - destruct (Z.leb_spec (compareFn x y) 0) as [Hxy|Hxy].
    + apply compareFn_key in Hxy.
      constructor; [now constructor|].
      constructor; [exact Hxy|].
      rewrite List.Forall_forall in Hy |- *. intros z Hz.
      specialize (Hy z Hz). unfold key_le in *. lia.
    + constructor; [exact IH|].
      assert (key y <= key x) as Hyx.
      { destruct (Z.le_gt_cases (key x) (key y)) as [Hle|Hgt]; [|lia].
        apply compareFn_key in Hle. lia. }
      rewrite List.Forall_forall in Hy |- *. intros z Hz.
      apply (Permutation_in _ (insert_Permutation x l)) in Hz.
      destruct Hz as [<-|Hz]; [exact Hyx|now apply Hy].
Qed.

Lemma sort_sorted (l : list A) : StronglySorted (key_le key) (JsArray.sort compareFn l).
Proof.
  induction l as [|x l IH]; simpl; [constructor|].
  now apply insert_sorted.
Qed.

(** The elements of one key keep the order they had. *)
Lemma insert_stable (c : Z) (x : A) (l : list A) :
  List.filter (fun a => key a =? c) (JsArray.insert compareFn x l)
  = List.filter (fun a => key a =? c) (x :: l).
Proof.
  induction l as [|y l IH]; simpl; [reflexivity|].
  destruct (Z.leb_spec (compareFn x y) 0) as [Hxy|Hxy]; [reflexivity|].
  assert (key y < key x) as Hyx.
  { destruct (Z.le_gt_cases (key x) (key y)) as [Hle|Hgt]; [|lia].
    apply compareFn_key in Hle. lia. }
  simpl in *. rewrite IH.
  destruct (Z.eqb_spec (key y) c), (Z.eqb_spec (key x) c); try reflexivity.
  lia.
Qed.

Lemma sort_stable (c : Z) (l : list A) :
  List.filter (fun a => key a =? c) (JsArray.sort compareFn l)
  = List.filter (fun a => key a =? c) l.
Proof.
  induction l as [|x l IH]; simpl; [reflexivity|].
  rewrite insert_stable. simpl. now rewrite IH.
Qed.

(** A list of strictly falling keys is sorted into its reverse. *)
Lemma insert_above (x : A) (l : list A) :
  Forall (fun y => key y < key x) l ->
  JsArray.insert compareFn x l = l ++ [x].
Proof.
  induction 1 as [|y l Hy _ IH]; simpl; [reflexivity|].
  destruct (Z.leb_spec (compareFn x y) 0) as [Hxy|Hxy].
  - apply compareFn_key in Hxy. lia.
  - now rewrite IH.
Qed.

Lemma sort_falling (l : list A) :
  StronglySorted (fun a b => key b < key a) l ->
  JsArray.sort compareFn l = rev l.
Proof.
  induction 1 as [|x l _ IH Hx]; simpl; [reflexivity|].
  rewrite IH. apply insert_above.
  rewrite List.Forall_forall in Hx |- *. intros y Hy.
  apply Hx. now apply in_rev.
Qed.
End SortFacts.

(** ** Objects *)

Lemma sum_counts_app (l1 l2 : list Z) :
  sum_counts (l1 ++ l2) = sum_counts l1 + sum_counts l2.
Proof. induction l1 as [|x l1 IH]; simpl; lia. Qed.


Section ObjectFacts.
Context {V : Type}.
Implicit Types (o : JsObject.t V) (k : string) (v : V).

Lemma filter_partition_Permutation (f : string * V -> bool) o :
  Permutation (List.filter f o ++ List.filter (fun e => negb (f e)) o) o.
Proof.
  induction o as [|e o IH]; simpl; [reflexivity|].
  destruct (f e); simpl.
  - now constructor.
  - rewrite <- Permutation_middle. now constructor.
Qed.

Lemma Object_entries_Permutation o : Permutation (Object_entries o) o.
Proof.
  unfold Object_entries. rewrite sort_Permutation.
  apply filter_partition_Permutation.
Qed.

Lemma Object_entries_length o : length (Object_entries o) = length o.
Proof. apply Permutation_length, Object_entries_Permutation. Qed.

Lemma Object_values_length o : length (Object_values o) = length o.
Proof. unfold Object_values. now rewrite length_map, Object_entries_length. Qed.

Lemma get_set o k k' v :
  JsObject.get (JsObject.set o k v) k'
  = if String.eqb k k' then Some v else JsObject.get o k'.
Proof.
  induction o as [|[k0 v0] o IH]; simpl.
  - reflexivity.
  - destruct (String.eqb_spec k0 k) as [->|Hne]; simpl.
    + destruct (String.eqb_spec k k'); reflexivity.
    + rewrite IH. destruct (String.eqb_spec k0 k') as [->|]; [|reflexivity].
      destruct (String.eqb_spec k k'); congruence.
Qed.
End ObjectFacts.



(** ** The Aggregator *)



Lemma tally_node_counts (t : Tally) (node : NodeRecord) :
  counts (tally_node t node)
  = ObjectLiteral.assign (counts t) (node_1 node)
      (JsValue.or_zero_plus_one (ObjectLiteral.read (counts t) (node_1 node))).
Proof.
  unfold tally_node.
  destruct (JsString.includes (node_1 node) "Knots"); reflexivity.
Qed.


Lemma marked_cons (node : NodeRecord) (l : list NodeRecord) :
  marked (node :: l) = marked [node] + marked l.
Proof.
  unfold marked. simpl.
  destruct (JsString.includes (node_1 node) "Knots"); simpl; lia.
Qed.



















(** C10. The counting loop of the Historical Backfill and the Aggregator
    compute the same marker count on every snapshot. *)
Theorem count_knots_is_knotsCount (data : ApiResponse) (s : AppState) :
  count_knots data = knotsCount (processNodeData data s).
Proof.
  simpl. unfold count_knots, tally_nodes.
  generalize (Object_values (nodes data)) as records.
  assert (forall records n t, n = knots t ->
            fold_left
              (fun knotsCount node =>
                 if JsString.includes (node_1 node) "Knots"
                 then knotsCount + 1 else knotsCount) records n
            = knots (fold_left tally_node records t)) as Hloop.
  { induction records as [|node records IH]; intros n t Hn; simpl; [exact Hn|].
    apply IH. unfold tally_node.
    destruct (JsString.includes (node_1 node) "Knots"); simpl; lia. }
  intros records. now apply Hloop.
Qed.

(** ** Display names *)

Lemma prefix_append (p s : string) : String.prefix p (p +:+ s) = true.
Proof.
  induction p as [|c p IH]; simpl; [now destruct s|].
  destruct (ascii_dec c c); [exact IH|congruence].
Qed.

Lemma skip_append (p s : string) : JsString.skip (String.length p) (p +:+ s) = s.
Proof. induction p as [|c p IH]; simpl; [reflexivity|exact IH]. Qed.

Lemma replace_prefix (p s : string) : JsString.replace (p +:+ s) p "" = s.
Proof.
  assert (forall t, JsString.replace t p ""
                    = if String.prefix p t
                      then "" +:+ JsString.skip (String.length p) t
                      else match t with
                           | EmptyString => EmptyString
                           | String c t' => String c (JsString.replace t' p "")
                           end) as Hunfold by (intros [|c t]; reflexivity).
  rewrite Hunfold, prefix_append, skip_append. reflexivity.
Qed.

Lemma replace_absent (s p rep : string) :
  JsString.includes s p = false -> JsString.replace s p rep = s.
Proof.
  induction s as [|c s IH]; cbn [JsString.includes JsString.replace].
  - destruct (String.prefix p ""); [discriminate|reflexivity].
  - destruct (String.prefix p (String c s)); [discriminate|].
    intros H. now rewrite IH.
Qed.

Lemma replace_trailing_slash_append (s : string) :
  JsString.replace_trailing_slash (s +:+ "/") = s.
Proof.
  induction s as [|c s IH]; [reflexivity|].
  destruct s as [|c' s]; [reflexivity|].
  change (String c (JsString.replace_trailing_slash (String c' s +:+ "/"))
          = String c (String c' s)).
  now rewrite IH.
Qed.

Lemma replace_trailing_slash_none (s : string) :
  ends_with_slash s = false -> JsString.replace_trailing_slash s = s.
Proof.
  induction s as [|c s IH]; [reflexivity|].
  destruct s as [|c' s].
  - simpl. now intros ->.
  - intros H. change (String c (JsString.replace_trailing_slash (String c' s))
                      = String c (String c' s)).
    now rewrite IH.
Qed.

(** C5, as the code has it. A version that starts with the literal
    [/Satoshi:] loses it, a version that does not contain the literal keeps
    its head, and in both cases exactly one trailing slash, if there is one,
    is removed: ["/Satoshi:24.0.1/"] becomes ["24.0.1"], and
    ["/Knots:20.1/"] becomes ["/Knots:20.1"], with its leading slash. *)
Theorem display_name_strips (rest version s : string) :
  display_name ("/Satoshi:" +:+ rest) = JsString.replace_trailing_slash rest
  /\ (JsString.includes version "/Satoshi:" = false ->
      display_name version = JsString.replace_trailing_slash version)
  /\ JsString.replace_trailing_slash (s +:+ "/") = s
  /\ (ends_with_slash s = false -> JsString.replace_trailing_slash s = s)
  /\ display_name "/Satoshi:24.0.1/" = "24.0.1"
  /\ display_name "/Knots:20.1/" = "/Knots:20.1".
Proof.
  repeat split.
  - unfold display_name. now rewrite replace_prefix.
  - intros H. unfold display_name. now rewrite replace_absent.
  - apply replace_trailing_slash_append.
  - apply replace_trailing_slash_none.
Qed.

Lemma display_name_strips_witness :
  display_name "/Knots:20240801" = "/Knots:20240801"
  /\ JsString.replace_trailing_slash "24.0.1" = "24.0.1".
Proof.
  destruct (display_name_strips "" "/Knots:20240801" "24.0.1")
    as (_ & Habsent & _ & Hnone & _).
  split.
  - rewrite Habsent; reflexivity.
  - apply Hnone. reflexivity.
Defined.

(** C5, as the spec words it, fails: the leading slash of ["/Knots:20.1/"]
    is no part of the literal [/Satoshi:], so it stays. *)
Lemma display_name_keeps_leading_slash :
  display_name "/Knots:20.1/" <> "Knots:20.1".
Proof. vm_compute. discriminate. Qed.

(** ** The table of versions *)

Lemma StronglySorted_take {A : Type} (R : A -> A -> Prop) (n : nat) (l : list A) :
  StronglySorted R l -> StronglySorted R (take n l).
Proof.
  intros H. rewrite <- (take_drop n l) in H.
  now apply StronglySorted_app_1_l in H.
Qed.

Lemma StronglySorted_map {A B : Type} (R : A -> A -> Prop) (S : B -> B -> Prop)
    (f : A -> B) (l : list A) :
  (forall a b, R a b -> S (f a) (f b)) ->
  StronglySorted R l -> StronglySorted S (map f l).
Proof.
  intros Hf. induction 1 as [|x l _ IH Hx]; simpl; constructor; [exact IH|].
  rewrite List.Forall_forall in Hx |- *. intros y Hy.
  apply in_map_iff in Hy as (z & <- & Hz). now apply Hf, Hx.
Qed.

Lemma compare_counts_key (e1 e2 : string * Z) :
  (let '(_, a) := e1 in fun '(_, b) => b - a) e2 <= 0 <-> - snd e1 <= - snd e2.
Proof. destruct e1, e2; simpl; lia. Qed.

(** C6. The table has min(number of versions, 21) rows, hence 21 rows for
    30 versions; its counts never rise from one row to the next; and it is
    the first 21 rows of a ranking in which the versions of any one count
    stand in the order in which [Object.entries] lists them. *)
Theorem sortedVersions_table (versionCounts : JsObject.t Z) :
  let entries := Object_entries versionCounts in
  let ranked := JsArray.sort (fun '(_, a) '(_, b) => b - a) entries in
  sortedVersions versionCounts
    = map (fun '(version, count) => (display_name version, count)) (take 21 ranked)
  /\ length (sortedVersions versionCounts) = Nat.min 21 (length versionCounts)
  /\ (length versionCounts = 30%nat ->
      length (sortedVersions versionCounts) = 21%nat)
  /\ StronglySorted by_count_desc (sortedVersions versionCounts)
  /\ Permutation ranked entries
  /\ forall c,
       List.filter (fun e => snd e =? c) ranked
       = List.filter (fun e => snd e =? c) entries.
Proof.
  intros entries ranked.
  assert (length (sortedVersions versionCounts)
          = Nat.min 21 (length versionCounts)) as Hlen.
  { unfold sortedVersions, JsArray.slice0.
    now rewrite length_map, length_take, sort_length, Object_entries_length. }
  split; [reflexivity|]. split; [exact Hlen|]. split; [intros H; lia|].
  split; [|split].
  - unfold sortedVersions, JsArray.slice0.
    apply StronglySorted_map with (R := key_le (fun e : string * Z => - snd e)).
    + intros [v1 c1] [v2 c2]. unfold key_le, by_count_desc. simpl. lia.
    + apply StronglySorted_take, sort_sorted. apply compare_counts_key.
  - apply sort_Permutation.
  - intros c. subst ranked.
    assert (forall e : string * Z, (snd e =? c) = (- snd e =? - c)) as Hext.
    { intros e. destruct (Z.eqb_spec (snd e) c), (Z.eqb_spec (- snd e) (- c));
        try reflexivity; lia. }
    rewrite !(List.filter_ext _ _ Hext).
    apply (sort_stable _ (fun e : string * Z => - snd e) compare_counts_key).
Qed.

Lemma sortedVersions_table_witness :
  length (sortedVersions Examples.thirty_versions) = 21%nat.
Proof.
  destruct (sortedVersions_table Examples.thirty_versions)
    as (_ & _ & Hthirty & _).
  apply Hthirty. reflexivity.
Defined.

(** ** Numbers and their decimal text *)

Lemma read_digits_uint (d : Decimal.uint) (acc : Z) :
  JsNumber.read_digits JsNumber.is_digit 10 (NilEmpty.string_of_uint d) true acc
  = Some (digits_acc d acc).
Proof.
  revert acc. induction d; intros acc; simpl; try reflexivity; apply IHd.
Qed.

Lemma digits_acc_pos (d : Decimal.uint) (p : positive) :
  digits_acc d (Z.pos p) = Z.pos (Pos.of_uint_acc d p).
Proof.
  revert p. induction d; intros p; simpl; try reflexivity;
    match goal with
    | |- digits_acc _ ?a = Z.pos (Pos.of_uint_acc _ ?q) =>
        replace a with (Z.pos q) by lia
    end; apply IHd.
Qed.

Lemma digits_acc_zero (d : Decimal.uint) :
  digits_acc d 0 = Z.of_uint d.
Proof.
  unfold Z.of_uint.
  induction d; simpl; try reflexivity; try exact IHd; apply digits_acc_pos.
Qed.

Lemma all_digits_uint (d : Decimal.uint) :
  JsNumber.all_digits (NilEmpty.string_of_uint d) = true.
Proof. induction d; simpl; try reflexivity; exact IHd. Qed.

Lemma is_digit_plain (c : ascii) :
  JsNumber.is_digit c = true ->
  JsNumber.is_white c = false /\ Ascii.eqb c "-" = false
  /\ Ascii.eqb c "+" = false /\ Ascii.eqb c "x" = false
  /\ Ascii.eqb c "X" = false.
Proof.
  destruct c as [[] [] [] [] [] [] [] []]; vm_compute; intros H;
    try discriminate H; repeat split.
Qed.

Lemma read_unsigned_all_digits (s : string) :
  JsNumber.all_digits s = true ->
  JsNumber.read_unsigned s = JsNumber.read_digits JsNumber.is_digit 10 s false 0.
Proof.
  destruct s as [|c [|c' s]]; try reflexivity.
  cbn [JsNumber.all_digits JsNumber.read_unsigned]. intros H.
  apply andb_prop in H as [_ H]. apply andb_prop in H as [H _].
  destruct (is_digit_plain c' H) as (_ & _ & _ & -> & ->).
  now rewrite andb_false_r.
Qed.

(** The text of a sequence of digits, the empty one being zero, is read
    back as its value. *)
Lemma read_unsigned_uint (d : Decimal.uint) :
  JsNumber.read_unsigned (NilZero.string_of_uint d) = Some (Z.of_uint d).
Proof.
  rewrite read_unsigned_all_digits.
  - destruct d; try reflexivity;
      cbn [NilZero.string_of_uint NilEmpty.string_of_uint JsNumber.read_digits];
      match goal with
      | |- context [JsNumber.is_digit ?c] =>
          change (JsNumber.is_digit c) with true
      end; cbv iota;
      match goal with
      | |- JsNumber.read_digits _ _ (NilEmpty.string_of_uint ?l) true ?a = Some (Z.of_uint ?e) =>
          rewrite read_digits_uint, <- (digits_acc_zero e); reflexivity
      end.
  - destruct d; try reflexivity;
      cbn [NilZero.string_of_uint NilEmpty.string_of_uint JsNumber.all_digits];
      now rewrite all_digits_uint.
Qed.

(** [parseInt] reads back what [toString] writes. *)
Lemma parseInt_toString (z : Z) :
  JsNumber.parseInt (JsNumber.toString z) = Some z.
Proof.
  unfold JsNumber.toString.
  rewrite <- (DecimalZ.of_to z) at 2.
  destruct (Z.to_int z) as [d|d]; cbn [NilZero.string_of_int Z.of_int].
  - pose proof (read_unsigned_uint d) as Hd.
    destruct (NilZero.string_of_uint d) as [|c s] eqn:Hs.
    + destruct d; discriminate Hs.
    + assert (JsNumber.is_digit c = true) as Hc.
      { destruct d; cbn in Hs; injection Hs as <- _; reflexivity. }
      destruct (is_digit_plain c Hc) as (Hw & Hm & Hp & _).
      unfold JsNumber.parseInt. cbn [JsNumber.skip_white].
      now rewrite Hw, Hm, Hp.
  - unfold JsNumber.parseInt. cbn [JsNumber.skip_white].
    change (JsNumber.is_white "-") with false.
    change (Ascii.eqb "-" "-") with true. cbv iota.
    now rewrite read_unsigned_uint.
Qed.

Lemma toString_truthy (z : Z) : JsString.truthy (Some (JsNumber.toString z)) = true.
Proof.
  unfold JsNumber.toString.
  destruct (Z.to_int z) as [d|d]; [destruct d|]; reflexivity.
Qed.

(** ** The cache check *)

Lemma cache_valid_stored (cachedData : string) (T now D : Z) :
  cachedData <> "" ->
  cache_valid (Some cachedData) (Some (JsNumber.toString T)) now D
  = (now - T <? D).
Proof.
  intros Hdata. unfold cache_valid.
  rewrite toString_truthy.
  change (default "" (Some (JsNumber.toString T))) with (JsNumber.toString T).
  rewrite parseInt_toString.
  unfold JsString.truthy.
  destruct (String.eqb_spec cachedData ""); [contradiction|reflexivity].
Qed.

(** C7. An entry stored at time [T] is used exactly while
    [now - T < CACHE_DURATION]: it is used at [T + D - 1] and not at
    [T + D]. The duration is 21 minutes for the latest snapshot and 24 hours
    for the historical series, both in milliseconds. *)
Theorem cache_expiry_boundary (cachedData : string) (T now D : Z) :
  cachedData <> "" ->
  let valid_at t := cache_valid (Some cachedData) (Some (JsNumber.toString T)) t D in
  (valid_at now = true <-> now - T < D)
  /\ valid_at (T + D - 1) = true
  /\ valid_at (T + D) = false
  /\ fetchData_CACHE_DURATION = 21 * 60000
  /\ fetchHistoricalData_CACHE_DURATION = 24 * 3600000.
Proof.
  intros Hdata valid_at. subst valid_at. cbv beta.
  rewrite !cache_valid_stored by exact Hdata.
  repeat split; try reflexivity.
  - apply Z.ltb_lt.
  - apply Z.ltb_lt.
  - apply Z.ltb_lt. lia.
  - apply Z.ltb_ge. lia.
Qed.

Lemma cache_expiry_boundary_witness :
  cache_valid (Some "[]") (Some (JsNumber.toString 1700000000000))
    (1700000000000 + fetchHistoricalData_CACHE_DURATION - 1)
    fetchHistoricalData_CACHE_DURATION = true
  /\ cache_valid (Some "[]") (Some (JsNumber.toString 1700000000000))
       (1700000000000 + fetchHistoricalData_CACHE_DURATION)
       fetchHistoricalData_CACHE_DURATION = false.
Proof.
  assert ("[]" <> "") as Hdata by discriminate.
  destruct (cache_expiry_boundary "[]" 1700000000000 0
              fetchHistoricalData_CACHE_DURATION Hdata)
    as (_ & Hlast & Hfirst & _).
  split; [exact Hlast|exact Hfirst].
Defined.

(** ** Running the pipelines *)

Lemma bind_run {A B : Type} (m : M A) (f : A -> M B) (w : World) :
  (m ≫= f) w
  = match m w with
    | (Normal a, w') => f a w'
    | (Throw, w') => (Throw, w')
    | (Timeout, w') => (Timeout, w')
    end.
Proof. reflexivity. Qed.

Lemma untouched_refl (w : World) : untouched w w.
Proof. split; reflexivity. Qed.

Lemma untouched_trans (w1 w2 w3 : World) :
  untouched w1 w2 -> untouched w2 w3 -> untouched w1 w3.
Proof. intros [H1 H2] [H3 H4]. split; congruence. Qed.

Section PipelineFacts.
Variable JSON_stringify_points : list HistoricalPoint -> string.
Variable JSON_parse_points : string -> option (list HistoricalPoint).
Variable net : Network.

Lemma axios_get_untouched (r : Request) (w : World) :
  untouched w (snd (axios_get net r w))
  /\ requests (snd (axios_get net r w)) = r :: requests w
  /\ fst (axios_get net r w) <> Timeout.
Proof.
  unfold axios_get. destruct (net (r :: requests w)); simpl;
    repeat split; discriminate.
Qed.

Lemma get_snapshot_untouched (u : string) (w : World) :
  untouched w (snd (get_snapshot net u w))
  /\ requests (snd (get_snapshot net u w)) = GetSnapshot u :: requests w
  /\ fst (get_snapshot net u w) <> Timeout.
Proof.
  unfold get_snapshot. rewrite bind_run.
  destruct (axios_get_untouched (GetSnapshot u) w) as (Hu & Hr & Ht).
  destruct (axios_get net (GetSnapshot u) w) as [[resp| |] w']; simpl in *;
    [destruct resp| |]; simpl; repeat split; try apply Hu; try exact Hr;
    try discriminate; congruence.
Qed.

Lemma get_listing_untouched (u : string) (w : World) :
  untouched w (snd (get_listing net u w))
  /\ requests (snd (get_listing net u w)) = GetListing u :: requests w
  /\ fst (get_listing net u w) <> Timeout.
Proof.
  unfold get_listing. rewrite bind_run.
  destruct (axios_get_untouched (GetListing u) w) as (Hu & Hr & Ht).
  destruct (axios_get net (GetListing u) w) as [[resp| |] w']; simpl in *;
    [destruct resp| |]; simpl; repeat split; try apply Hu; try exact Hr;
    try discriminate; congruence.
Qed.

(** The loop over the kept summaries only adds snapshot requests. *)
Lemma process_snapshots_untouched (filtered : list Snapshot)
    (h : list HistoricalPoint) (w : World) :
  let r := process_snapshots net filtered h w in
  untouched w (snd r)
  /\ listing_fetches (snd r) = listing_fetches w
  /\ fst r <> Timeout.
Proof.
  revert h w. induction filtered as [|snapshot rest IH]; intros h w.
  - simpl. repeat split. discriminate.
  - cbn [process_snapshots]. rewrite bind_run.
    destruct (get_snapshot_untouched (url snapshot) w) as (Hu & Hr & Ht).
    destruct (get_snapshot net (url snapshot) w) as [[data| |] w'] eqn:Hget;
      simpl in Hu, Hr, Ht.
    + specialize (IH (h ++ [{| point_timestamp := snap_timestamp snapshot;
                               point_knotsCount := count_knots data |}]) w').
      destruct IH as (Hu' & Hl' & Ht').
      split; [exact (untouched_trans _ _ _ Hu Hu')|].
      split; [|exact Ht'].
      rewrite Hl'. unfold listing_fetches. now rewrite Hr.
    + simpl. split; [exact Hu|]. split; [|discriminate].
      unfold listing_fetches. now rewrite Hr.
    + contradiction.
Qed.

(** One iteration of the [while] loop. *)
Lemma pages_loop_step (steps : nat) (l : Loop) (w : World) :
  pages_loop net (S steps) l w
  = if JsString.truthy (nextUrl l) && (apiCallCount l <? MAX_API_CALLS) then
      match get_listing net (default "" (nextUrl l)) w with
      | (Normal response, w1) =>
          let kept := filter_snapshots (lastTimestamp l) (results response) in
          match process_snapshots net (fst kept) (loop_historicalData l) w1 with
          | (Normal h, w2) =>
              pages_loop net steps
                {| loop_historicalData := h; nextUrl := next response;
                   lastTimestamp := snd kept;
                   apiCallCount := apiCallCount l + 1 |} w2
          | (Throw, w2) => (Throw, w2)
          | (Timeout, w2) => (Timeout, w2)
          end
      | (Throw, w1) => (Throw, w1)
      | (Timeout, w1) => (Timeout, w1)
      end
    else (Normal (loop_historicalData l), w).
Proof.
  cbn [pages_loop].
  destruct (JsString.truthy (nextUrl l) && (apiCallCount l <? MAX_API_CALLS));
    [|reflexivity].
  rewrite bind_run.
  destruct (get_listing net (default "" (nextUrl l)) w) as [[response| |] w1];
    try reflexivity.
  destruct (filter_snapshots (lastTimestamp l) (results response))
    as [filtered last].
  reflexivity.
Qed.

Lemma pages_loop_done (steps : nat) (l : Loop) (w : World) :
  JsString.truthy (nextUrl l) && (apiCallCount l <? MAX_API_CALLS) = false ->
  pages_loop net steps l w = (Normal (loop_historicalData l), w).
Proof. intros H. destruct steps; cbn [pages_loop]; now rewrite H. Qed.

Lemma listing_fetches_listing (u : string) (w w' : World) :
  requests w' = GetListing u :: requests w ->
  listing_fetches w' = S (listing_fetches w).
Proof. intros H. unfold listing_fetches. now rewrite H. Qed.

(** The [while] loop leaves the component and the cache alone, never
    exhausts the steps it is granted when they cover the calls that are
    left, and requests at most that many listing pages. *)
Lemma pages_loop_untouched (steps : nat) (l : Loop) (w : World) :
  (Z.to_nat (MAX_API_CALLS - apiCallCount l) <= steps)%nat ->
  let r := pages_loop net steps l w in
  untouched w (snd r)
  /\ (listing_fetches (snd r)
      <= listing_fetches w + Z.to_nat (MAX_API_CALLS - apiCallCount l))%nat
  /\ fst r <> Timeout.
Proof.
  revert l w. induction steps as [|steps IH]; intros l w Hsteps r; subst r.
  - rewrite pages_loop_done.
    + simpl. repeat split; [lia|discriminate].
    + destruct (Z.ltb_spec (apiCallCount l) MAX_API_CALLS) as [Hlt|Hge]; [lia|].
      apply andb_false_r.
  - rewrite pages_loop_step.
    destruct (JsString.truthy (nextUrl l)); simpl andb;
      [|simpl; repeat split; [lia|discriminate]].
    destruct (Z.ltb_spec (apiCallCount l) MAX_API_CALLS) as [Hlt|Hge];
      [|simpl; repeat split; [lia|discriminate]].
    destruct (get_listing_untouched (default "" (nextUrl l)) w) as (Hu & Hr & Ht).
    destruct (get_listing net (default "" (nextUrl l)) w)
      as [[response| |] w1] eqn:Hget; simpl in Hu, Hr, Ht;
      [| |contradiction].
    + apply listing_fetches_listing in Hr.
      cbv zeta.
      destruct (process_snapshots_untouched
                  (fst (filter_snapshots (lastTimestamp l) (results response)))
                  (loop_historicalData l) w1) as (Hu1 & Hl1 & Ht1).
      destruct (process_snapshots net
                  (fst (filter_snapshots (lastTimestamp l) (results response)))
                  (loop_historicalData l) w1)
        as [[h| |] w2] eqn:Hproc; simpl in Hu1, Hl1, Ht1; [| |contradiction].
      * match goal with
        | |- context [pages_loop net steps ?l' w2] =>
            destruct (IH l' w2) as (Hu2 & Hl2 & Ht2); [simpl; lia|];
            simpl in Hl2
        end.
        split; [exact (untouched_trans _ _ _ Hu (untouched_trans _ _ _ Hu1 Hu2))|].
        split; [lia|exact Ht2].
      * simpl. split; [exact (untouched_trans _ _ _ Hu Hu1)|].
        split; [lia|discriminate].
    + apply listing_fetches_listing in Hr.
      simpl. split; [exact Hu|]. split; [lia|discriminate].
Qed.

(** The body of the [try] of the Historical Backfill, case by case. *)
Lemma fetchHistoricalData_try_run (now : Z) (w : World) :
  let cachedData := localStorage w !! "knotsgoup_snapshots" in
  let cachedTimestamp := localStorage w !! "knotsgoup_snapshots_timestamp" in
  let w0 := with_app (setIsLoadingHistorical true) w in
  fetchHistoricalData_try JSON_stringify_points JSON_parse_points net now w
  = if cache_valid cachedData cachedTimestamp now
         fetchHistoricalData_CACHE_DURATION
    then
      match JSON_parse_points (default "" cachedData) with
      | Some parsedData =>
          (Normal tt,
           with_app (setIsLoadingHistorical false)
             (with_app (setHistoricalData parsedData) w0))
      | None => (Throw, w0)
      end
    else
      match pages_loop net (Z.to_nat MAX_API_CALLS) loop_start w0 with
      | (Normal h, w1) =>
          let sortedData := JsArray.sort by_timestamp h in
          (Normal tt,
           with_app (setHistoricalData sortedData)
             (with_series (JSON_stringify_points sortedData) now w1))
      | (Throw, w1) => (Throw, w1)
      | (Timeout, w1) => (Timeout, w1)
      end.
Proof.
  intros cachedData cachedTimestamp w0. subst cachedData cachedTimestamp w0.
  unfold fetchHistoricalData_try, with_app, with_series, loop_start, by_timestamp.
  unfold mbind, M_bind, setState, getItem, setItem, orThrow, mret, M_ret, throw.
  cbn [localStorage app requests].
  destruct (cache_valid _ _ now fetchHistoricalData_CACHE_DURATION).
  - destruct (JSON_parse_points _); reflexivity.
  - destruct (pages_loop net _ _ _) as [[h| |] w1]; reflexivity.
Qed.

(** A valid cache entry is used as it is: no request is made. *)
Lemma fetchHistoricalData_try_hit (now : Z) (w : World)
    (points : list HistoricalPoint) :
  cache_valid (localStorage w !! "knotsgoup_snapshots")
    (localStorage w !! "knotsgoup_snapshots_timestamp") now
    fetchHistoricalData_CACHE_DURATION = true ->
  JSON_parse_points (default "" (localStorage w !! "knotsgoup_snapshots"))
    = Some points ->
  fetchHistoricalData JSON_stringify_points JSON_parse_points net now w
  = with_app (fun s => setIsLoadingHistorical false (setHistoricalData points s)) w.
Proof.
  intros Hvalid Hparse. unfold fetchHistoricalData.
  rewrite fetchHistoricalData_try_run. cbv zeta. rewrite Hvalid, Hparse.
  destruct w as [[] ls log]. reflexivity.
Qed.
End PipelineFacts.

(** C8. While the cached series is less than 24 hours old, the Historical
    Backfill makes no request and hands out the series that was stored, and
    the cache stays as it is. *)
Theorem fetchHistoricalData_cached
    (JSON_stringify_points : list HistoricalPoint -> string)
    (JSON_parse_points : string -> option (list HistoricalPoint))
    (net : Network) (w : World) (T now : Z) (points : list HistoricalPoint) :
  localStorage w !! "knotsgoup_snapshots" = Some (JSON_stringify_points points) ->
  localStorage w !! "knotsgoup_snapshots_timestamp" = Some (JsNumber.toString T) ->
  JSON_stringify_points points <> "" ->
  JSON_parse_points (JSON_stringify_points points) = Some points ->
  now - T < fetchHistoricalData_CACHE_DURATION ->
  let w' := fetchHistoricalData JSON_stringify_points JSON_parse_points net now w in
  requests w' = requests w
  /\ historicalData (app w') = points
  /\ localStorage w' = localStorage w.
Proof.
  intros Hdata Htime Htext Hparse Hage w'. subst w'.
  rewrite (fetchHistoricalData_try_hit _ _ net now w points).
  - repeat split.
  - rewrite Hdata, Htime, cache_valid_stored by exact Htext.
    apply Z.ltb_lt, Hage.
  - rewrite Hdata. exact Hparse.
Qed.

Lemma fetchHistoricalData_cached_witness :
  let w := Examples.cachedWorld 1000 in
  let w' := fetchHistoricalData Json.stringify_points Json.parse_points
              Examples.broken (1000 + 86400000 - 1) w in
  requests w' = [] /\ historicalData (app w') = Examples.cached_points
  /\ localStorage w' = localStorage w.
Proof.
  apply (fetchHistoricalData_cached Json.stringify_points Json.parse_points
           Examples.broken (Examples.cachedWorld 1000) 1000 (1000 + 86400000 - 1)
           Examples.cached_points).
  - reflexivity.
  - reflexivity.
  - discriminate.
  - reflexivity.
  - reflexivity.
Defined.

(** ** The cap on listing pages *)

Section EndlessListing.
Variable net : Network.
Hypothesis Hpages : endless_listing net.
Hypothesis Hsnapshots : snapshots_served net.

Lemma get_snapshot_served (u : string) (w : World) :
  exists data w',
    get_snapshot net u w = (Normal data, w')
    /\ listing_fetches w' = listing_fetches w.
Proof.
  destruct (Hsnapshots (requests w) u) as (data & Hnet).
  exists data. eexists. split.
  - unfold get_snapshot, axios_get. rewrite bind_run, Hnet. reflexivity.
  - reflexivity.
Qed.

Lemma process_snapshots_served (filtered : list Snapshot)
    (h : list HistoricalPoint) (w : World) :
  exists h' w',
    process_snapshots net filtered h w = (Normal h', w')
    /\ listing_fetches w' = listing_fetches w.
Proof.
  revert h w. induction filtered as [|snapshot rest IH]; intros h w.
  - exists h, w. split; reflexivity.
  - destruct (get_snapshot_served (url snapshot) w) as (data & w1 & Hget & Hl1).
    destruct (IH (h ++ [{| point_timestamp := snap_timestamp snapshot;
                           point_knotsCount := count_knots data |}]) w1)
      as (h' & w2 & Hrest & Hl2).
    exists h', w2. split; [|congruence].
    cbn [process_snapshots]. rewrite bind_run, Hget. exact Hrest.
Qed.

Lemma get_listing_served (u : string) (w : World) :
  exists page w',
    get_listing net u w = (Normal page, w')
    /\ JsString.truthy (next page) = true
    /\ listing_fetches w' = S (listing_fetches w).
Proof.
  destruct (Hpages (requests w) u) as (page & Hnet & Hnext).
  exists page. eexists. split; [|split; [exact Hnext|]].
  - unfold get_listing, axios_get. rewrite bind_run, Hnet. reflexivity.
  - reflexivity.
Qed.

(** On such a listing the loop uses up all the calls it has left. *)
Lemma pages_loop_endless (steps : nat) (l : Loop) (w : World) :
  JsString.truthy (nextUrl l) = true ->
  apiCallCount l = MAX_API_CALLS - Z.of_nat steps ->
  exists h w',
    pages_loop net steps l w = (Normal h, w')
    /\ listing_fetches w' = (listing_fetches w + steps)%nat.
Proof.
  revert l w. induction steps as [|steps IH]; intros l w Hnext Hcount.
  - exists (loop_historicalData l), w. split; [|lia].
    apply pages_loop_done. rewrite Hcount.
    apply andb_false_r.
  - rewrite pages_loop_step, Hnext.
    destruct (Z.ltb_spec (apiCallCount l) MAX_API_CALLS) as [_|Hge]; [|lia].
    cbn [andb].
    destruct (get_listing_served (default "" (nextUrl l)) w)
      as (page & w1 & -> & Hnext1 & Hl1).
    cbv zeta.
    destruct (process_snapshots_served
                (fst (filter_snapshots (lastTimestamp l) (results page)))
                (loop_historicalData l) w1) as (h1 & w2 & -> & Hl2).
    match goal with
    | |- context [pages_loop net steps ?l' w2] =>
        destruct (IH l' w2) as (h & w' & Hrun & Hl3);
          [exact Hnext1|simpl; lia|]
    end.
    exists h, w'. split; [exact Hrun|lia].
Qed.
End EndlessListing.

(** C3. The Historical Backfill always comes to an end, after at most 12
    requests for a listing page; and when the cache is not used, every page
    names a next one and every request is answered, it ends normally after
    exactly 12 of them. *)
Theorem fetchHistoricalData_page_cap
    (JSON_stringify_points : list HistoricalPoint -> string)
    (JSON_parse_points : string -> option (list HistoricalPoint))
    (net : Network) (now : Z) (w : World) :
  let r := fetchHistoricalData_try JSON_stringify_points JSON_parse_points net now w in
  let w' := fetchHistoricalData JSON_stringify_points JSON_parse_points net now w in
  fst r <> Timeout
  /\ (listing_fetches w' <= listing_fetches w + 12)%nat
  /\ (cache_valid (localStorage w !! "knotsgoup_snapshots")
        (localStorage w !! "knotsgoup_snapshots_timestamp") now
        fetchHistoricalData_CACHE_DURATION = false ->
      endless_listing net ->
      snapshots_served net ->
      fst r = Normal tt /\ listing_fetches w' = (listing_fetches w + 12)%nat).
Proof.
  unfold fetchHistoricalData. rewrite fetchHistoricalData_try_run. cbv zeta.
  destruct (cache_valid _ _ now fetchHistoricalData_CACHE_DURATION) eqn:Hvalid.
  - split; [|split].
    + destruct (JSON_parse_points _); discriminate.
    + destruct (JSON_parse_points _); unfold listing_fetches; simpl; lia.
    + discriminate.
  - pose proof (pages_loop_untouched net (Z.to_nat MAX_API_CALLS) loop_start
                  (with_app (setIsLoadingHistorical true) w)) as Hloop.
    split; [|split].
    + destruct (pages_loop net _ _ _) as [[h| |] w1]; try discriminate.
      destruct Hloop as (_ & _ & Ht); [reflexivity|]. now contradiction Ht.
    + destruct Hloop as (_ & Hl & _); [reflexivity|].
      destruct (pages_loop net _ _ _) as [[h| |] w1]; exact Hl.
    + intros _ Hpages Hsnapshots.
      destruct (pages_loop_endless net Hpages Hsnapshots
                  (Z.to_nat MAX_API_CALLS) loop_start
                  (with_app (setIsLoadingHistorical true) w))
        as (h & w1 & -> & Hl); [reflexivity|reflexivity|].
      split; [reflexivity|exact Hl].
Qed.

Lemma endless_is_endless : endless_listing Examples.endless.
Proof. intros log u. eexists. split; reflexivity. Qed.

Lemma endless_serves_snapshots : snapshots_served Examples.endless.
Proof. intros log u. eexists. reflexivity. Qed.

Lemma fetchHistoricalData_page_cap_witness :
  let r := fetchHistoricalData_try Json.stringify_points Json.parse_points
             Examples.endless 1700000000000 Examples.emptyWorld in
  let w' := fetchHistoricalData Json.stringify_points Json.parse_points
              Examples.endless 1700000000000 Examples.emptyWorld in
  fst r = Normal tt /\ listing_fetches w' = 12%nat.
Proof.
  apply (fetchHistoricalData_page_cap Json.stringify_points Json.parse_points
           Examples.endless 1700000000000 Examples.emptyWorld).
  - reflexivity.
  - exact endless_is_endless.
  - exact endless_serves_snapshots.
Defined.

(** ** The spacing of the historical series *)

Lemma filter_snapshots_cons (last : option Z) (snapshot : Snapshot)
    (rest : list Snapshot) :
  filter_snapshots last (snapshot :: rest)
  = if keeps last snapshot then
      let kept := filter_snapshots (Some (snap_timestamp snapshot)) rest in
      (snapshot :: fst kept, snd kept)
    else filter_snapshots last rest.
Proof.
  cbn [filter_snapshots]. unfold keeps.
  change (ONE_WEEK_MS / 1000) with 604800.
  destruct (negb (JsNumber.truthy last)); cbn [orb].
  - now destruct (filter_snapshots (Some (snap_timestamp snapshot)) rest).
  - destruct (604800 <=? _); [|reflexivity].
    now destruct (filter_snapshots (Some (snap_timestamp snapshot)) rest).
Qed.

Lemma filter_snapshots_app (last : option Z) (page1 page2 : list Snapshot) :
  filter_snapshots last (page1 ++ page2)
  = let kept1 := filter_snapshots last page1 in
    let kept2 := filter_snapshots (snd kept1) page2 in
    (fst kept1 ++ fst kept2, snd kept2).
Proof.
  revert last. induction page1 as [|snapshot rest IH]; intros last.
  - simpl. now destruct (filter_snapshots last page2).
  - rewrite <- app_comm_cons, !filter_snapshots_cons.
    destruct (keeps last snapshot); [|apply IH].
    rewrite IH. reflexivity.
Qed.

(** After a kept summary of timestamp [t], not zero, the filter keeps, of a
    listing that goes on towards the past, summaries a week or more before
    [t] and a week or more from each other. *)
Lemma filter_snapshots_after (t : Z) (snapshots : list Snapshot) :
  t <> 0 ->
  Forall (fun s => snap_timestamp s <> 0 /\ snap_timestamp s <= t) snapshots ->
  newest_first (map snap_timestamp snapshots) ->
  let kept := map snap_timestamp (fst (filter_snapshots (Some t) snapshots)) in
  Forall (fun x => x + 604800 <= t) kept /\ falling_by_weeks kept.
Proof.
  revert t. induction snapshots as [|snapshot rest IH]; intros t Ht Hall Hsorted.
  - simpl. split; constructor.
  - apply Forall_cons in Hall as [[Hnz Hle] Hall].
    unfold newest_first in Hsorted. cbn [map] in Hsorted.
    apply StronglySorted_inv in Hsorted as [Hsorted Hrest].
    rewrite filter_snapshots_cons.
    assert (keeps (Some t) snapshot
            = (604800 <=? Z.abs (snap_timestamp snapshot - t))) as ->.
    { unfold keeps, JsNumber.truthy.
      destruct (Z.eqb_spec t 0) as [|_]; [contradiction|reflexivity]. }
    destruct (Z.leb_spec 604800 (Z.abs (snap_timestamp snapshot - t))) as [Hgap|Hgap].
    + destruct (IH (snap_timestamp snapshot)) as [Hbelow Hfalling];
        [exact Hnz| |exact Hsorted|].
      { rewrite List.Forall_forall in Hall, Hrest |- *. intros s Hs.
        split; [now apply Hall|]. apply Hrest. now apply in_map. }
      cbn [fst map].
      split.
      * constructor; [lia|].
        rewrite List.Forall_forall in Hbelow |- *. intros x Hx.
        specialize (Hbelow x Hx). lia.
      * constructor; [exact Hfalling|exact Hbelow].
    + apply IH; [exact Ht| |exact Hsorted].
      rewrite List.Forall_forall in Hall |- *. intros s Hs. now apply Hall.
Qed.

(** From the start, with no timestamp equal to zero, the filter keeps
    summaries a week or more from each other. *)
Lemma filter_snapshots_falling (snapshots : list Snapshot) :
  Forall (fun t => t <> 0) (map snap_timestamp snapshots) ->
  newest_first (map snap_timestamp snapshots) ->
  falling_by_weeks (map snap_timestamp (fst (filter_snapshots None snapshots))).
Proof.
  destruct snapshots as [|snapshot rest]; intros Hnz Hsorted.
  - constructor.
  - unfold newest_first in Hsorted. cbn [map] in Hnz, Hsorted.
    apply Forall_cons in Hnz as [Hnz Hall].
    apply StronglySorted_inv in Hsorted as [Hsorted Hrest].
    rewrite filter_snapshots_cons.
    change (keeps None snapshot) with true. cbn [fst map].
    destruct (filter_snapshots_after (snap_timestamp snapshot) rest)
      as [Hbelow Hfalling]; [exact Hnz| |exact Hsorted|].
    { rewrite List.Forall_forall in Hall, Hrest |- *. intros s Hs.
      split; [|now apply Hrest, in_map]. now apply Hall, in_map. }
    constructor; [exact Hfalling|exact Hbelow].
Qed.

Section Series.
Variable net : Network.

Lemma get_listing_pages (u : string) (w w1 : World) (page : SnapshotResponse) :
  get_listing net u w = (Normal page, w1) ->
  listing_pages net (requests w1) = listing_pages net (requests w) ++ [page].
Proof.
  unfold get_listing, axios_get. rewrite bind_run.
  destruct (net (GetListing u :: requests w)) as [[page'|data|other|]|] eqn:Hnet;
    intros H; inversion H; subst; clear H.
  cbn [requests listing_pages]. now rewrite Hnet.
Qed.

Lemma get_snapshot_pages (u : string) (w w1 : World) (data : ApiResponse) :
  get_snapshot net u w = (Normal data, w1) ->
  listing_pages net (requests w1) = listing_pages net (requests w).
Proof.
  unfold get_snapshot, axios_get. rewrite bind_run.
  destruct (net (GetSnapshot u :: requests w)) as [[page'|data'|other|]|] eqn:Hnet;
    intros H; inversion H; subst; clear H.
  cbn [requests listing_pages]. apply app_nil_r.
Qed.

(** The points that the loop over the kept summaries appends carry the
    timestamps of these summaries, in their order. *)
Lemma process_snapshots_points (filtered : list Snapshot)
    (h h' : list HistoricalPoint) (w w1 : World) :
  process_snapshots net filtered h w = (Normal h', w1) ->
  listing_pages net (requests w1) = listing_pages net (requests w)
  /\ map point_timestamp h'
     = map point_timestamp h ++ map snap_timestamp filtered.
Proof.
  revert h w. induction filtered as [|snapshot rest IH]; intros h w Hrun.
  - inversion Hrun. subst. split; [reflexivity|]. simpl. now rewrite app_nil_r.
  - cbn [process_snapshots] in Hrun. rewrite bind_run in Hrun.
    destruct (get_snapshot net (url snapshot) w) as [[data| |] w0] eqn:Hget;
      try discriminate.
    apply IH in Hrun as [Hpages Hpoints].
    split.
    + rewrite Hpages. exact (get_snapshot_pages _ _ _ _ Hget).
    + rewrite Hpoints, map_app, <- app_assoc. reflexivity.
Qed.

(** The series that the [while] loop returns carries the timestamps that
    the filter keeps of the summaries of the pages it fetched, taken as one
    sequence. *)
Lemma pages_loop_points (steps : nat) (l : Loop) (w w' : World)
    (h : list HistoricalPoint) :
  pages_loop net steps l w = (Normal h, w') ->
  exists pages,
    listing_pages net (requests w') = listing_pages net (requests w) ++ pages
    /\ map point_timestamp h
       = map point_timestamp (loop_historicalData l)
         ++ map snap_timestamp
              (fst (filter_snapshots (lastTimestamp l)
                      (concat (map results pages)))).
Proof.
  revert l w. induction steps as [|steps IH]; intros l w Hrun.
  - cbn [pages_loop] in Hrun.
    destruct (JsString.truthy (nextUrl l) && (apiCallCount l <? MAX_API_CALLS));
      [discriminate|].
    inversion Hrun. subst. exists []. simpl. now rewrite !app_nil_r.
  - rewrite pages_loop_step in Hrun.
    destruct (JsString.truthy (nextUrl l) && (apiCallCount l <? MAX_API_CALLS)).
    + destruct (get_listing net (default "" (nextUrl l)) w)
        as [[page| |] w1] eqn:Hget; try discriminate.
      cbv zeta in Hrun.
      destruct (process_snapshots net _ (loop_historicalData l) w1)
        as [[h1| |] w2] eqn:Hproc; try discriminate.
      apply IH in Hrun as (pages & Hpages & Hpoints).
      apply process_snapshots_points in Hproc as [Hpages2 Hpoints1].
      apply get_listing_pages in Hget.
      exists (page :: pages). split.
      * rewrite Hpages, Hpages2, Hget, <- app_assoc. reflexivity.
      * cbn [loop_historicalData lastTimestamp] in Hpoints.
        rewrite Hpoints, Hpoints1. cbn [map concat].
        rewrite filter_snapshots_app. cbn [fst].
        now rewrite map_app, app_assoc.
    + inversion Hrun. subst. exists []. simpl. now rewrite !app_nil_r.
Qed.
End Series.

Lemma StronglySorted_rev {A : Type} (R : A -> A -> Prop) (l : list A) :
  StronglySorted R l -> StronglySorted (fun a b => R b a) (rev l).
Proof.
  induction 1 as [|x l _ IH Hx]; simpl; [constructor|].
  apply StronglySorted_app_2; [|exact IH|repeat constructor].
  intros a b Ha Hb. apply list_elem_of_In in Ha, Hb.
  destruct Hb as [<-|[]]. rewrite List.Forall_forall in Hx.
  now apply Hx, in_rev.
Qed.

Lemma StronglySorted_of_map {A B : Type} (R : B -> B -> Prop) (f : A -> B)
    (l : list A) :
  StronglySorted R (map f l) -> StronglySorted (fun a b => R (f a) (f b)) l.
Proof.
  induction l as [|x l IH]; simpl; intros H; [constructor|].
  apply StronglySorted_inv in H as [Hl Hx].
  constructor; [now apply IH|].
  rewrite List.Forall_forall in Hx |- *. intros y Hy. now apply Hx, in_map.
Qed.

Lemma by_timestamp_key (a b : HistoricalPoint) :
  by_timestamp a b <= 0 <-> point_timestamp a <= point_timestamp b.
Proof. unfold by_timestamp. lia. Qed.

(** A series whose timestamps fall by weeks is sorted into a series that is
    spaced by weeks. *)
Lemma sort_week_spaced (h : list HistoricalPoint) :
  falling_by_weeks (map point_timestamp h) ->
  week_spaced (JsArray.sort by_timestamp h).
Proof.
  intros Hfalling. apply StronglySorted_of_map in Hfalling.
  rewrite (sort_falling by_timestamp point_timestamp by_timestamp_key).
  - apply StronglySorted_rev in Hfalling. exact Hfalling.
  - rewrite <- (List.map_id h).
    eapply StronglySorted_map; [|exact Hfalling].
    intros a b Hab. simpl in Hab. lia.
Qed.

(** X1. The spacing of the series where no listed timestamp is zero: when the
    Historical Backfill ends normally on pages listed from the newest summary
    to the oldest, the series it installs is ascending, with a week or more
    between its points. *)
Lemma fetchHistoricalData_week_spaced
    (JSON_stringify_points : list HistoricalPoint -> string)
    (JSON_parse_points : string -> option (list HistoricalPoint))
    (net : Network) (now : Z) (w : World) :
  cache_valid (localStorage w !! "knotsgoup_snapshots")
    (localStorage w !! "knotsgoup_snapshots_timestamp") now
    fetchHistoricalData_CACHE_DURATION = false ->
  fst (fetchHistoricalData_try JSON_stringify_points JSON_parse_points net now w)
    = Normal tt ->
  let w' := fetchHistoricalData JSON_stringify_points JSON_parse_points net now w in
  exists pages,
    listing_pages net (requests w') = listing_pages net (requests w) ++ pages
    /\ (Forall (fun t => t <> 0) (listed_timestamps pages) ->
        newest_first (listed_timestamps pages) ->
        week_spaced (historicalData (app w'))).
Proof.
  intros Hvalid. unfold fetchHistoricalData.
  rewrite fetchHistoricalData_try_run. cbv zeta. rewrite Hvalid.
  destruct (pages_loop net (Z.to_nat MAX_API_CALLS) loop_start
              (with_app (setIsLoadingHistorical true) w))
    as [[h| |] w1] eqn:Hrun; try discriminate.
  intros _. apply pages_loop_points in Hrun as (pages & Hpages & Hpoints).
  exists pages. split; [exact Hpages|].
  intros Hnz Hsorted. cbn.
  apply sort_week_spaced. rewrite Hpoints. cbn [loop_start loop_historicalData
    lastTimestamp map app].
  now apply filter_snapshots_falling.
Qed.

Lemma week_spaced_spacedb (series : list HistoricalPoint) :
  week_spaced series -> week_spacedb series = true.
Proof.
  induction 1 as [|p series _ IH Hp]; [reflexivity|].
  destruct series as [|q series]; [reflexivity|].
  change (week_spacedb (p :: q :: series))
    with ((point_timestamp p + 604800 <=? point_timestamp q)
          && week_spacedb (q :: series)).
  rewrite IH, andb_true_r.
  apply Forall_inv in Hp. now apply Z.leb_le.
Qed.

(** C2 fails on the code. A page lists, from the newest to the oldest, the
    timestamps 604800, 0 and 0. The filter keeps the second summary, a week
    from the first, and then takes the zero it has stored for the absence of
    a kept timestamp: it keeps the third summary too. The series has two
    points with no time between them. *)
Theorem fetchHistoricalData_epoch_not_spaced :
  let w' := fetchHistoricalData Json.stringify_points Json.parse_points
              Examples.epoch 1700000000000 Examples.emptyWorld in
  listing_pages Examples.epoch (requests w') = [Examples.page None [604800; 0; 0]]
  /\ newest_first [604800; 0; 0]
  /\ map point_timestamp (historicalData (app w')) = [0; 0; 604800]
  /\ week_spacedb (historicalData (app w')) = false
  /\ ~ week_spaced (historicalData (app w')).
Proof.
  split; [reflexivity|]. split; [|split; [|split]].
  - repeat constructor; lia.
  - reflexivity.
  - reflexivity.
  - intros H. apply week_spaced_spacedb in H. vm_compute in H. discriminate H.
Qed.

(** The same with timestamps that fall strictly: the third summary is a day
    before the epoch, and it is kept a day from the second. *)
Lemma fetchHistoricalData_before_epoch_not_spaced :
  let w' := fetchHistoricalData Json.stringify_points Json.parse_points
              Examples.before_epoch 1700000000000 Examples.emptyWorld in
  map point_timestamp (historicalData (app w')) = [-86400; 0; 604800]
  /\ ~ week_spaced (historicalData (app w')).
Proof.
  split; [reflexivity|].
  intros H. apply week_spaced_spacedb in H. vm_compute in H. discriminate H.
Qed.

(** Ten summaries a day apart: the first and the eighth are kept, seven days
    from each other. *)
Lemma fetchHistoricalData_ten_days :
  let w' := fetchHistoricalData Json.stringify_points Json.parse_points
              Examples.ten_days 1700000000000 Examples.emptyWorld in
  map point_timestamp (historicalData (app w')) = [1699395200; 1700000000]
  /\ week_spacedb (historicalData (app w')) = true.
Proof. split; reflexivity. Qed.

(** X8. A run that fetched the series and a second run within the 24 hours that
    follow: the second changes nothing. *)
Lemma fetchHistoricalData_again
    (JSON_stringify_points : list HistoricalPoint -> string)
    (JSON_parse_points : string -> option (list HistoricalPoint))
    (net : Network) (t1 t2 : Z) (w : World) :
  cache_valid (localStorage w !! "knotsgoup_snapshots")
    (localStorage w !! "knotsgoup_snapshots_timestamp") t1
    fetchHistoricalData_CACHE_DURATION = false ->
  fst (fetchHistoricalData_try JSON_stringify_points JSON_parse_points net t1 w)
    = Normal tt ->
  let w1 := fetchHistoricalData JSON_stringify_points JSON_parse_points net t1 w in
  JSON_stringify_points (historicalData (app w1)) <> "" ->
  JSON_parse_points (JSON_stringify_points (historicalData (app w1)))
    = Some (historicalData (app w1)) ->
  t2 - t1 < fetchHistoricalData_CACHE_DURATION ->
  fetchHistoricalData JSON_stringify_points JSON_parse_points net t2 w1 = w1.
Proof.
  intros Hstale Hok w1.
  assert (exists h w0,
            w1 = with_app (setIsLoadingHistorical false)
                   (with_app (setHistoricalData (JsArray.sort by_timestamp h))
                      (with_series
                         (JSON_stringify_points (JsArray.sort by_timestamp h))
                         t1 w0))) as (h & w0 & Hw1).
  { subst w1. unfold fetchHistoricalData.
    rewrite fetchHistoricalData_try_run in Hok |- *. cbv zeta in Hok |- *.
    rewrite Hstale in Hok |- *.
    destruct (pages_loop net (Z.to_nat MAX_API_CALLS) loop_start
                (with_app (setIsLoadingHistorical true) w))
      as [[h| |] w0]; try discriminate.
    exists h, w0. reflexivity. }
  clearbody w1. subst w1.
  cbn [with_app with_series app localStorage requests
       setHistoricalData setIsLoadingHistorical historicalData].
  intros Htext Hparse Hage.
  rewrite (fetchHistoricalData_try_hit _ _ net t2 _ (JsArray.sort by_timestamp h)).
  - reflexivity.
  - unfold with_app, with_series. cbn [localStorage].
    rewrite lookup_insert_ne, lookup_insert_eq, lookup_insert_eq by discriminate.
    rewrite cache_valid_stored by exact Htext.
    apply Z.ltb_lt, Hage.
  - unfold with_app, with_series. cbn [localStorage].
    rewrite lookup_insert_ne, lookup_insert_eq by discriminate.
    exact Hparse.
Qed.

(** ** Failed requests *)

Section Answered.
Variable net : Network.

Lemma answered_since_trans (log1 log2 log3 : list Request) :
  answered_since net log1 log2 -> answered_since net log2 log3 ->
  answered_since net log1 log3.
Proof.
  intros H12 H23. induction H23 as [|r log _ IH Hr]; [exact H12|].
  now constructor.
Qed.

Lemma axios_get_answered (r : Request) (w w1 : World) (resp : Response) :
  axios_get net r w = (Normal resp, w1) ->
  answered_since net (requests w) (requests w1).
Proof.
  unfold axios_get.
  destruct (net (r :: requests w)) as [resp'|] eqn:Hnet; intros H;
    inversion H; subst; clear H.
  cbn [requests]. constructor; [constructor|]. rewrite Hnet. now eexists.
Qed.

Lemma get_listing_answered (u : string) (w w1 : World) (page : SnapshotResponse) :
  get_listing net u w = (Normal page, w1) ->
  answered_since net (requests w) (requests w1).
Proof.
  unfold get_listing. rewrite bind_run.
  destruct (axios_get net (GetListing u) w) as [[resp| |] w0] eqn:Hget;
    try discriminate.
  destruct resp; intros H; inversion H; subst; clear H.
  exact (axios_get_answered _ _ _ _ Hget).
Qed.

Lemma get_snapshot_answered (u : string) (w w1 : World) (data : ApiResponse) :
  get_snapshot net u w = (Normal data, w1) ->
  answered_since net (requests w) (requests w1).
Proof.
  unfold get_snapshot. rewrite bind_run.
  destruct (axios_get net (GetSnapshot u) w) as [[resp| |] w0] eqn:Hget;
    try discriminate.
  destruct resp; intros H; inversion H; subst; clear H.
  exact (axios_get_answered _ _ _ _ Hget).
Qed.

Lemma process_snapshots_answered (filtered : list Snapshot)
    (h h' : list HistoricalPoint) (w w1 : World) :
  process_snapshots net filtered h w = (Normal h', w1) ->
  answered_since net (requests w) (requests w1).
Proof.
  revert h w. induction filtered as [|snapshot rest IH]; intros h w Hrun.
  - inversion Hrun. subst. constructor.
  - cbn [process_snapshots] in Hrun. rewrite bind_run in Hrun.
    destruct (get_snapshot net (url snapshot) w) as [[data| |] w0] eqn:Hget;
      try discriminate.
    apply IH in Hrun. apply get_snapshot_answered in Hget.
    exact (answered_since_trans _ _ _ Hget Hrun).
Qed.

(** A loop that ends normally had all its requests answered. *)
Lemma pages_loop_answered (steps : nat) (l : Loop) (w w' : World)
    (h : list HistoricalPoint) :
  pages_loop net steps l w = (Normal h, w') ->
  answered_since net (requests w) (requests w').
Proof.
  revert l w. induction steps as [|steps IH]; intros l w Hrun.
  - cbn [pages_loop] in Hrun.
    destruct (JsString.truthy (nextUrl l) && (apiCallCount l <? MAX_API_CALLS));
      [discriminate|].
    inversion Hrun. subst. constructor.
  - rewrite pages_loop_step in Hrun.
    destruct (JsString.truthy (nextUrl l) && (apiCallCount l <? MAX_API_CALLS)).
    + destruct (get_listing net (default "" (nextUrl l)) w)
        as [[page| |] w1] eqn:Hget; try discriminate.
      cbv zeta in Hrun.
      destruct (process_snapshots net _ (loop_historicalData l) w1)
        as [[h1| |] w2] eqn:Hproc; try discriminate.
      apply IH in Hrun. apply process_snapshots_answered in Hproc.
      apply get_listing_answered in Hget.
      exact (answered_since_trans _ _ _ Hget
               (answered_since_trans _ _ _ Hproc Hrun)).
    + inversion Hrun. subst. constructor.
Qed.
End Answered.

(** C4. A request of the Historical Backfill that is not answered makes its
    body throw, as a failed parse of the cache does; and when the body
    throws, the points gathered so far are dropped: the cache and the series
    held by the component are what they were. *)
Theorem fetchHistoricalData_failure_discards
    (JSON_stringify_points : list HistoricalPoint -> string)
    (JSON_parse_points : string -> option (list HistoricalPoint))
    (net : Network) (now : Z) (w : World) :
  let r := fetchHistoricalData_try JSON_stringify_points JSON_parse_points net now w in
  let w' := fetchHistoricalData JSON_stringify_points JSON_parse_points net now w in
  (~ answered_since net (requests w) (requests w') -> fst r = Throw)
  /\ (cache_valid (localStorage w !! "knotsgoup_snapshots")
        (localStorage w !! "knotsgoup_snapshots_timestamp") now
        fetchHistoricalData_CACHE_DURATION = true ->
      JSON_parse_points (default "" (localStorage w !! "knotsgoup_snapshots"))
        = None ->
      fst r = Throw)
  /\ (fst r = Throw ->
      localStorage w' = localStorage w
      /\ historicalData (app w') = historicalData (app w)).
Proof.
  unfold fetchHistoricalData. rewrite fetchHistoricalData_try_run. cbv zeta.
  destruct (cache_valid _ _ now fetchHistoricalData_CACHE_DURATION).
  - destruct (JSON_parse_points _).
    + split; [|split; discriminate]. intros H. contradiction H. constructor.
    + split; [reflexivity|]. split; [reflexivity|]. intros _. split; reflexivity.
  - pose proof (pages_loop_untouched net (Z.to_nat MAX_API_CALLS) loop_start
                  (with_app (setIsLoadingHistorical true) w)) as Hloop.
    pose proof (pages_loop_answered net (Z.to_nat MAX_API_CALLS) loop_start
                  (with_app (setIsLoadingHistorical true) w)) as Hanswered.
    destruct (pages_loop net (Z.to_nat MAX_API_CALLS) loop_start
                (with_app (setIsLoadingHistorical true) w)) as [[h| |] w1].
    + split; [|split; discriminate]. intros H. contradiction H.
      exact (Hanswered w1 h eq_refl).
    + split; [reflexivity|]. split; [discriminate|]. intros _.
      destruct Hloop as ((Happ & Hls) & _); [reflexivity|].
      simpl in *. rewrite Happ, Hls. split; reflexivity.
    + destruct Hloop as (_ & _ & Ht); [reflexivity|]. now contradiction Ht.
Qed.

Lemma fetchHistoricalData_failure_discards_witness :
  let w := Examples.cachedWorld 1000 in
  let r := fetchHistoricalData_try Json.stringify_points Json.parse_points
             Examples.broken (1000 + 86400000) w in
  let w' := fetchHistoricalData Json.stringify_points Json.parse_points
              Examples.broken (1000 + 86400000) w in
  fst r = Throw
  /\ localStorage w' = localStorage w
  /\ historicalData (app w') = historicalData (app w).
Proof.
  destruct (fetchHistoricalData_failure_discards Json.stringify_points
              Json.parse_points Examples.broken (1000 + 86400000)
              (Examples.cachedWorld 1000)) as (Hthrows & _ & Hdiscards).
  assert (fst (fetchHistoricalData_try Json.stringify_points Json.parse_points
                 Examples.broken (1000 + 86400000) (Examples.cachedWorld 1000))
          = Throw) as Hthrow.
  { apply Hthrows. intros H.
    inversion H as [Hnone|r log Hlog Hlast Heq]. clear H.
    vm_compute in Hlast. destruct Hlast as [resp Hresp]. discriminate Hresp. }
  split; [exact Hthrow|]. exact (Hdiscards Hthrow).
Defined.

(** ** The two caches at their boundary *)

Section Requests.
Variable net : Network.

Lemma axios_get_requests (r : Request) (w : World) :
  requests (snd (axios_get net r w)) = r :: requests w.
Proof. unfold axios_get. now destruct (net (r :: requests w)). Qed.

Lemma get_snapshot_requests (u : string) (w : World) :
  requests (snd (get_snapshot net u w)) = GetSnapshot u :: requests w.
Proof. apply get_snapshot_untouched. Qed.

Lemma get_listing_requests (u : string) (w : World) :
  requests (snd (get_listing net u w)) = GetListing u :: requests w.
Proof. apply get_listing_untouched. Qed.

Lemma process_snapshots_grows (filtered : list Snapshot)
    (h : list HistoricalPoint) (w : World) :
  exists new, requests (snd (process_snapshots net filtered h w)) = new ++ requests w.
Proof.
  revert h w. induction filtered as [|snapshot rest IH]; intros h w.
  - now exists [].
  - cbn [process_snapshots]. rewrite bind_run.
    pose proof (get_snapshot_requests (url snapshot) w) as Hr.
    destruct (get_snapshot net (url snapshot) w) as [[data| |] w1];
      cbn [snd] in Hr |- *.
    + destruct (IH (h ++ [{| point_timestamp := snap_timestamp snapshot;
                             point_knotsCount := count_knots data |}]) w1)
        as (new & Hnew).
      exists (new ++ [GetSnapshot (url snapshot)]).
      now rewrite Hnew, Hr, <- app_assoc.
    + now exists [GetSnapshot (url snapshot)].
    + now exists [GetSnapshot (url snapshot)].
Qed.

(** The loop only adds to the log of requests. *)
Lemma pages_loop_grows (steps : nat) (l : Loop) (w : World) :
  exists new, requests (snd (pages_loop net steps l w)) = new ++ requests w.
Proof.
  revert l w. induction steps as [|steps IH]; intros l w.
  - cbn [pages_loop].
    destruct (JsString.truthy (nextUrl l) && (apiCallCount l <? MAX_API_CALLS));
      now exists [].
  - rewrite pages_loop_step.
    destruct (JsString.truthy (nextUrl l) && (apiCallCount l <? MAX_API_CALLS));
      [|now exists []].
    pose proof (get_listing_requests (default "" (nextUrl l)) w) as Hr.
    destruct (get_listing net (default "" (nextUrl l)) w) as [[page| |] w1];
      cbn [snd] in Hr; try (now exists [GetListing (default "" (nextUrl l))]).
    cbv zeta.
    destruct (process_snapshots_grows
                (fst (filter_snapshots (lastTimestamp l) (results page)))
                (loop_historicalData l) w1) as (new1 & Hnew1).
    destruct (process_snapshots net _ (loop_historicalData l) w1)
      as [[h1| |] w2]; cbn [snd] in Hnew1.
    + match goal with
      | |- context [pages_loop net steps ?l' w2] =>
          destruct (IH l' w2) as (new2 & Hnew2)
      end.
      exists (new2 ++ new1 ++ [GetListing (default "" (nextUrl l))]).
      now rewrite Hnew2, Hnew1, Hr, <- !app_assoc.
    + exists (new1 ++ [GetListing (default "" (nextUrl l))]).
      cbn [snd]. now rewrite Hnew1, Hr, <- app_assoc.
    + exists (new1 ++ [GetListing (default "" (nextUrl l))]).
      cbn [snd]. now rewrite Hnew1, Hr, <- app_assoc.
Qed.
(** An iteration of the loop starts with the request for its page. *)
Lemma pages_loop_first (steps : nat) (l : Loop) (w : World) :
  JsString.truthy (nextUrl l) && (apiCallCount l <? MAX_API_CALLS) = true ->
  exists new,
    requests (snd (pages_loop net (S steps) l w))
    = new ++ GetListing (default "" (nextUrl l)) :: requests w.
Proof.
  intros Hguard. rewrite pages_loop_step, Hguard.
  pose proof (get_listing_requests (default "" (nextUrl l)) w) as Hr.
  destruct (get_listing net (default "" (nextUrl l)) w) as [[page| |] w1];
    cbn [snd] in Hr; try (now exists []).
  cbv zeta.
  destruct (process_snapshots_grows
              (fst (filter_snapshots (lastTimestamp l) (results page)))
              (loop_historicalData l) w1) as (new1 & Hnew1).
  destruct (process_snapshots net _ (loop_historicalData l) w1)
    as [[h1| |] w2]; cbn [snd] in Hnew1.
  - match goal with
    | |- context [pages_loop net steps ?l' w2] =>
        destruct (pages_loop_grows steps l' w2) as (new2 & Hnew2)
    end.
    exists (new2 ++ new1). now rewrite Hnew2, Hnew1, Hr, <- app_assoc.
  - exists new1. cbn [snd]. now rewrite Hnew1, Hr.
  - exists new1. cbn [snd]. now rewrite Hnew1, Hr.
Qed.
End Requests.

(** X9. A cached series that is 24 hours old or older is not used: the first
    page of the listing is requested. *)
Lemma fetchHistoricalData_stale_refetches
    (JSON_stringify_points : list HistoricalPoint -> string)
    (JSON_parse_points : string -> option (list HistoricalPoint))
    (net : Network) (w : World) (cachedData : string) (T now : Z) :
  localStorage w !! "knotsgoup_snapshots" = Some cachedData ->
  localStorage w !! "knotsgoup_snapshots_timestamp" = Some (JsNumber.toString T) ->
  fetchHistoricalData_CACHE_DURATION <= now - T ->
  exists new,
    requests (fetchHistoricalData JSON_stringify_points JSON_parse_points net now w)
    = new ++ GetListing "https://bitnodes.io/api/v1/snapshots/" :: requests w.
Proof.
  intros Hdata Htime Hage. unfold fetchHistoricalData.
  rewrite fetchHistoricalData_try_run. cbv zeta. rewrite Hdata, Htime.
  assert (cache_valid (Some cachedData) (Some (JsNumber.toString T)) now
            fetchHistoricalData_CACHE_DURATION = false) as ->.
  { destruct (String.eqb_spec cachedData "") as [->|Hne]; [reflexivity|].
    rewrite cache_valid_stored by exact Hne. apply Z.ltb_ge, Hage. }
  destruct (pages_loop_first net 11 loop_start
              (with_app (setIsLoadingHistorical true) w) eq_refl) as (new & Hnew).
  exists new.
  change (Z.to_nat MAX_API_CALLS) with 12%nat.
  destruct (pages_loop net 12 loop_start _) as [[h| |] w1]; exact Hnew.
Qed.

(** X15. The same boundary for the latest snapshot, at 21 minutes: a younger
    entry is used without a request, an older one is fetched again. *)
Lemma fetchData_cache_boundary
    (JSON_stringify_data : ApiResponse -> string)
    (JSON_parse_data : string -> option Response)
    (net : Network) (w : World) (cachedData : string) (data : ApiResponse)
    (T now : Z) :
  localStorage w !! "nodeData" = Some cachedData ->
  localStorage w !! "nodeDataTimestamp" = Some (JsNumber.toString T) ->
  cachedData <> "" ->
  JSON_parse_data cachedData = Some (SnapshotData data) ->
  let w' := fetchData JSON_stringify_data JSON_parse_data net now w in
  (now - T < fetchData_CACHE_DURATION ->
   requests w' = requests w /\ nodeData (app w') = Some (SnapshotData data))
  /\ (fetchData_CACHE_DURATION <= now - T ->
      requests w'
      = GetLatest "https://bitnodes.io/api/v1/snapshots/latest/" :: requests w).
Proof.
  intros Hdata Htime Htext Hparse.
  unfold fetchData, fetchData_try, member_total_nodes, call_processNodeData.
  unfold mbind, M_bind, setState, getItem, setItem, orThrow, mret, M_ret, throw.
  cbn [localStorage app requests]. rewrite Hdata, Htime.
  rewrite cache_valid_stored by exact Htext.
  split; intros Hage.
  - apply Z.ltb_lt in Hage. rewrite Hage.
    change (default "" (Some cachedData)) with cachedData. rewrite Hparse.
    split; reflexivity.
  - apply Z.ltb_ge in Hage. rewrite Hage.
    unfold axios_get. cbn [requests].
    destruct (net _) as [[page|d|other|]|]; reflexivity.
Qed.

(** ** The percentage of a row *)

(** C9, as the code has it. The percentage is defined for every count and
    every total; nothing guards a total of zero, for which the cell reads
    [NaN] when the count is zero and an infinity otherwise. *)
Theorem percentage_of_nothing (count : Z) :
  percentage count 0
  = JsDouble.Literal
      (if count =? 0 then "NaN"
       else if count <? 0 then "-Infinity" else "Infinity").
Proof.
  unfold percentage, JsDouble.div. cbn [Z.eqb].
  destruct (count =? 0); [reflexivity|].
  destruct (count <? 0); reflexivity.
Qed.

(** C9, as the spec words it, fails: with no node and a count of zero the
    cell does not show a number, and in particular not zero percent. *)
Lemma percentage_of_nothing_is_NaN :
  percentage 0 0 = JsDouble.Literal "NaN"
  /\ shows_number (percentage 0 0) = false.
Proof. split; reflexivity. Qed.

(** * Further properties of the code *)

(** ** The filter of the Historical Backfill *)

Lemma filter_snapshots_sublist (last : option Z) (snapshots : list Snapshot) :
  sublist (fst (filter_snapshots last snapshots)) snapshots.
Proof.
  revert last. induction snapshots as [|snapshot rest IH]; intros last.
  - constructor.
  - rewrite filter_snapshots_cons. destruct (keeps last snapshot); cbn [fst].
    + apply sublist_skip, IH.
    + apply sublist_cons, IH.
Qed.

Lemma filter_snapshots_last (last : option Z) (snapshots : list Snapshot) :
  snd (filter_snapshots last snapshots)
  = last_timestamp last (fst (filter_snapshots last snapshots)).
Proof.
  revert last. induction snapshots as [|snapshot rest IH]; intros last.
  - reflexivity.
  - rewrite filter_snapshots_cons. destruct (keeps last snapshot); cbn [fst snd].
    + apply IH.
    + apply IH.
Qed.

(** X5. What the filter keeps of a page: a selection of its summaries in their
    order; the variable [lastTimestamp] ends as the timestamp of the last
    summary kept, or as it was when none is kept; and with no timestamp kept
    before (or a zero one) the first summary of the page is kept. *)
Theorem filter_snapshots_selects (lastTimestamp : option Z)
    (snapshots : list Snapshot) :
  let kept := fst (filter_snapshots lastTimestamp snapshots) in
  sublist kept snapshots
  /\ snd (filter_snapshots lastTimestamp snapshots)
     = last_timestamp lastTimestamp kept
  /\ (JsNumber.truthy lastTimestamp = false -> head kept = head snapshots).
Proof.
  split; [apply filter_snapshots_sublist|].
  split; [apply filter_snapshots_last|].
  intros Hfalsy. destruct snapshots as [|snapshot rest]; [reflexivity|].
  rewrite filter_snapshots_cons. unfold keeps. rewrite Hfalsy. reflexivity.
Qed.

Lemma filter_snapshots_selects_witness :
  head (fst (filter_snapshots (Some 0)
               (map Examples.summary [1700000000; 1699913600])))
  = Some (Examples.summary 1700000000).
Proof.
  destruct (filter_snapshots_selects (Some 0)
              (map Examples.summary [1700000000; 1699913600]))
    as (_ & _ & Hhead).
  rewrite Hhead; reflexivity.
Defined.

(** X6. The spacing that the filter gives whatever the order of the page: when
    no timestamp is zero, each summary kept is a week or more, earlier or
    later, from the one kept before it, starting from the timestamp kept on
    the pages before. *)
Theorem filter_snapshots_spacing (lastTimestamp : option Z)
    (snapshots : list Snapshot) :
  lastTimestamp <> Some 0 ->
  Forall (fun t => t <> 0) (map snap_timestamp snapshots) ->
  Sorted week_or_more
    (option_list lastTimestamp
     ++ map snap_timestamp (fst (filter_snapshots lastTimestamp snapshots))).
Proof.
  revert lastTimestamp.
  induction snapshots as [|snapshot rest IH]; intros last Hlast Hnz.
  - simpl. rewrite app_nil_r. destruct last; repeat constructor.
  - cbn [map] in Hnz. apply Forall_cons in Hnz as [Hnz Hrest].
    rewrite filter_snapshots_cons.
    destruct (keeps last snapshot) eqn:Hkeeps; [|now apply IH].
    cbn [fst map].
    assert (Sorted week_or_more
              (snap_timestamp snapshot
               :: map snap_timestamp
                    (fst (filter_snapshots (Some (snap_timestamp snapshot)) rest))))
      as Hkept.
    { apply (IH (Some (snap_timestamp snapshot))); [congruence|exact Hrest]. }
    destruct last as [t|]; [|exact Hkept].
    cbn [option_list app]. constructor; [exact Hkept|]. constructor.
    unfold keeps, JsNumber.truthy in Hkeeps.
    destruct (Z.eqb_spec t 0) as [->|_]; [congruence|].
    cbn [negb orb] in Hkeeps. apply Z.leb_le in Hkeeps. exact Hkeeps.
Qed.

Lemma filter_snapshots_spacing_witness :
  Sorted week_or_more
    (map snap_timestamp
       (fst (filter_snapshots None
               (map Examples.summary [1700000000; 1700086400; 1699000000; 1700700000])))).
Proof.
  apply (filter_snapshots_spacing None
           (map Examples.summary [1700000000; 1700086400; 1699000000; 1700700000])).
  - discriminate.
  - repeat constructor; discriminate.
Defined.

(** ** The marker count of a snapshot *)

Lemma fold_count_knots (records : list NodeRecord) (n : Z) :
  fold_left
    (fun knotsCount node =>
       if JsString.includes (node_1 node) "Knots" then knotsCount + 1
       else knotsCount) records n
  = n + marked records.
Proof.
  revert n. induction records as [|node records IH]; intros n.
  - unfold marked. simpl. lia.
  - cbn [fold_left]. rewrite IH, (marked_cons node records).
    unfold marked. simpl.
    destruct (JsString.includes (node_1 node) "Knots"); simpl; lia.
Qed.

(** X7. The marker count that the Historical Backfill computes for a snapshot is
    the number of its records whose version contains [Knots]; it lies
    between zero and the number of records. *)
Theorem count_knots_counts (data : ApiResponse) :
  count_knots data = marked (Object_values (nodes data))
  /\ 0 <= count_knots data <= Z.of_nat (length (nodes data)).
Proof.
  unfold count_knots. rewrite fold_count_knots.
  split; [lia|].
  unfold marked.
  pose proof (List.filter_length_le
                (fun node => JsString.includes (node_1 node) "Knots")
                (Object_values (nodes data))) as Hle.
  rewrite Object_values_length in Hle. lia.
Qed.

(** ** The requests and the points of the Historical Backfill *)

Section Trace.
Variable net : Network.

Lemma axios_get_normal (r : Request) (w w1 : World) (resp : Response) :
  axios_get net r w = (Normal resp, w1) ->
  net (r :: requests w) = Some resp /\ requests w1 = r :: requests w.
Proof.
  unfold axios_get. destruct (net (r :: requests w)) as [resp'|];
    intros H; inversion H; subst. split; reflexivity.
Qed.

Lemma get_snapshot_normal (u : string) (w w1 : World) (data : ApiResponse) :
  get_snapshot net u w = (Normal data, w1) ->
  net (GetSnapshot u :: requests w) = Some (SnapshotData data)
  /\ requests w1 = GetSnapshot u :: requests w.
Proof.
  unfold get_snapshot. rewrite bind_run.
  destruct (axios_get net (GetSnapshot u) w) as [[resp| |] w0] eqn:Hget;
    try discriminate.
  apply axios_get_normal in Hget as [Hnet Hlog].
  destruct resp; intros H; inversion H; subst. split; assumption.
Qed.

Lemma get_listing_normal (u : string) (w w1 : World) (page : SnapshotResponse) :
  get_listing net u w = (Normal page, w1) ->
  net (GetListing u :: requests w) = Some (ListingPage page)
  /\ requests w1 = GetListing u :: requests w.
Proof.
  unfold get_listing. rewrite bind_run.
  destruct (axios_get net (GetListing u) w) as [[resp| |] w0] eqn:Hget;
    try discriminate.
  apply axios_get_normal in Hget as [Hnet Hlog].
  destruct resp; intros H; inversion H; subst. split; assumption.
Qed.

(** The loop over the kept summaries makes one point from each, with one
    snapshot request, and requests no listing page. *)
Lemma process_snapshots_trace (filtered : list Snapshot)
    (h h' : list HistoricalPoint) (w w1 : World) :
  process_snapshots net filtered h w = (Normal h', w1) ->
  exists points,
    h' = h ++ points
    /\ Forall2 (point_from net) points filtered
    /\ snapshot_fetches w1 = (snapshot_fetches w + length filtered)%nat
    /\ listing_urls (requests w1) = listing_urls (requests w)
    /\ listing_pages net (requests w1) = listing_pages net (requests w).
Proof.
  revert h w. induction filtered as [|snapshot rest IH]; intros h w Hrun.
  - inversion Hrun. subst. exists []. rewrite app_nil_r.
    split; [reflexivity|]. split; [constructor|]. split; [simpl; lia|].
    split; reflexivity.
  - cbn [process_snapshots] in Hrun. rewrite bind_run in Hrun.
    destruct (get_snapshot net (url snapshot) w) as [[data| |] w0] eqn:Hget;
      try discriminate.
    pose proof (get_snapshot_pages _ _ _ _ _ Hget) as Hpages0.
    apply get_snapshot_normal in Hget as [Hnet Hlog].
    apply IH in Hrun as (points & -> & Hfrom & Hcount & Hurls & Hpages).
    exists ({| point_timestamp := snap_timestamp snapshot;
               point_knotsCount := count_knots data |} :: points).
    split; [now rewrite <- app_assoc|].
    split; [|split; [|split]].
    + constructor; [|exact Hfrom]. split; [reflexivity|].
      exists (requests w), data. split; [exact Hnet|reflexivity].
    + rewrite Hcount. unfold snapshot_fetches. rewrite Hlog. simpl. lia.
    + rewrite Hurls, Hlog. reflexivity.
    + rewrite Hpages. exact Hpages0.
Qed.

(** A loop that ends normally: the pages it was answered with, the addresses
    it asked, why it stopped, and the points it made. *)
Lemma pages_loop_trace (steps : nat) (l : Loop) (w w' : World)
    (h : list HistoricalPoint) :
  pages_loop net steps l w = (Normal h, w') ->
  exists pages points,
    listing_pages net (requests w') = listing_pages net (requests w) ++ pages
    /\ listing_urls (requests w')
       = listing_urls (requests w) ++ followed (nextUrl l) pages
    /\ (length pages <= steps)%nat
    /\ JsString.truthy (next_after (nextUrl l) pages)
       && (apiCallCount l + Z.of_nat (length pages) <? MAX_API_CALLS) = false
    /\ h = loop_historicalData l ++ points
    /\ Forall2 (point_from net) points
         (fst (filter_snapshots (lastTimestamp l) (concat (map results pages))))
    /\ snapshot_fetches w' = (snapshot_fetches w + length points)%nat.
Proof.
  revert l w. induction steps as [|steps IH]; intros l w Hrun.
  - cbn [pages_loop] in Hrun.
    destruct (JsString.truthy (nextUrl l) && (apiCallCount l <? MAX_API_CALLS))
      eqn:Hguard; [discriminate|].
    inversion Hrun. subst. exists [], []. rewrite !app_nil_r.
    cbn [followed next_after length]. rewrite Z.add_0_r.
    split; [reflexivity|]. split; [reflexivity|]. split; [lia|].
    split; [exact Hguard|]. split; [reflexivity|].
      split; [constructor|simpl; lia].
  - rewrite pages_loop_step in Hrun.
    destruct (JsString.truthy (nextUrl l) && (apiCallCount l <? MAX_API_CALLS))
      eqn:Hguard.
    + destruct (get_listing net (default "" (nextUrl l)) w)
        as [[page| |] w1] eqn:Hget; try discriminate.
      cbv zeta in Hrun.
      destruct (process_snapshots net _ (loop_historicalData l) w1)
        as [[h1| |] w2] eqn:Hproc; try discriminate.
      apply IH in Hrun
        as (pages & points2 & Hpages & Hurls & Hlen & Hstop & Hh & Hfrom2 & Hcount2).
      apply process_snapshots_trace in Hproc
        as (points1 & -> & Hfrom1 & Hcount1 & Hurls1 & Hpages1).
      pose proof (get_listing_pages _ _ _ _ _ Hget) as Hpages0.
      apply get_listing_normal in Hget as [Hnet Hlog].
      cbn [nextUrl apiCallCount loop_historicalData lastTimestamp]
        in Hurls, Hstop, Hh, Hfrom2.
      exists (page :: pages), (points1 ++ points2).
      split; [|split; [|split; [|split; [|split; [|split]]]]].
      * rewrite Hpages, Hpages1, Hpages0, <- app_assoc. reflexivity.
      * rewrite Hurls, Hurls1, Hlog. cbn [listing_urls followed].
        now rewrite <- app_assoc.
      * cbn [length]. lia.
      * cbn [next_after length]. rewrite <- Hstop. f_equal. f_equal. lia.
      * rewrite Hh, <- app_assoc. reflexivity.
      * cbn [map concat]. rewrite filter_snapshots_app. cbn [fst].
        apply Forall2_app; assumption.
      * rewrite Hcount2, Hcount1, length_app.
        apply Forall2_length in Hfrom1.
        assert (snapshot_fetches w1 = snapshot_fetches w) as ->
          by (unfold snapshot_fetches; now rewrite Hlog).
        lia.
    + inversion Hrun. subst. exists [], []. rewrite !app_nil_r.
      cbn [followed next_after length]. rewrite Z.add_0_r.
      split; [reflexivity|]. split; [reflexivity|]. split; [lia|].
      split; [exact Hguard|]. split; [reflexivity|].
      split; [constructor|simpl; lia].
Qed.
End Trace.

(** X2. The series that the Historical Backfill installs after it went to the
    network: its points are in ascending order of their timestamps, whatever
    the order of the listing; the cache holds the text of this very series
    and the time of the run; no other key of the cache changes, and the
    loading flag is cleared. *)
Theorem fetchHistoricalData_stores
    (JSON_stringify_points : list HistoricalPoint -> string)
    (JSON_parse_points : string -> option (list HistoricalPoint))
    (net : Network) (now : Z) (w : World) :
  cache_valid (localStorage w !! "knotsgoup_snapshots")
    (localStorage w !! "knotsgoup_snapshots_timestamp") now
    fetchHistoricalData_CACHE_DURATION = false ->
  fst (fetchHistoricalData_try JSON_stringify_points JSON_parse_points net now w)
    = Normal tt ->
  let w' := fetchHistoricalData JSON_stringify_points JSON_parse_points net now w in
  let series := historicalData (app w') in
  ascending series
  /\ localStorage w' !! "knotsgoup_snapshots" = Some (JSON_stringify_points series)
  /\ localStorage w' !! "knotsgoup_snapshots_timestamp"
     = Some (JsNumber.toString now)
  /\ (forall k, k <> "knotsgoup_snapshots" ->
                k <> "knotsgoup_snapshots_timestamp" ->
                localStorage w' !! k = localStorage w !! k)
  /\ isLoadingHistorical (app w') = false.
Proof.
  intros Hvalid. unfold fetchHistoricalData.
  rewrite fetchHistoricalData_try_run. cbv zeta. rewrite Hvalid.
  pose proof (pages_loop_untouched net (Z.to_nat MAX_API_CALLS) loop_start
                (with_app (setIsLoadingHistorical true) w)) as Hloop.
  destruct (pages_loop net (Z.to_nat MAX_API_CALLS) loop_start
              (with_app (setIsLoadingHistorical true) w))
    as [[h| |] w1]; try discriminate.
  intros _. destruct Hloop as ((_ & Hls) & _); [reflexivity|].
  cbn [snd] in Hls. cbn. rewrite Hls.
  split; [apply sort_sorted, by_timestamp_key|].
  split; [now rewrite lookup_insert_ne, lookup_insert_eq by discriminate|].
  split; [now rewrite lookup_insert_eq|].
  split; [|reflexivity].
  intros k Hk1 Hk2. now rewrite !lookup_insert_ne by congruence.
Qed.

Lemma fetchHistoricalData_stores_witness :
  let w' := fetchHistoricalData Json.stringify_points Json.parse_points
              Examples.two_pages 1700000000000 Examples.emptyWorld in
  ascending (historicalData (app w'))
  /\ localStorage w' !! "knotsgoup_snapshots"
     = Some (Json.stringify_points (historicalData (app w'))).
Proof.
  destruct (fetchHistoricalData_stores Json.stringify_points Json.parse_points
              Examples.two_pages 1700000000000 Examples.emptyWorld)
    as (Hasc & Htext & _); [reflexivity|reflexivity|].
  split; [exact Hasc|exact Htext].
Defined.

(** X3. The points of the series after a run that went to the network: they
    are, sorted, one point for each summary that the filter keeps of the
    pages fetched, each with the timestamp of its summary and the marker
    count of the snapshot fetched at its address; and the run makes as many
    snapshot requests as the series has points. *)
Theorem fetchHistoricalData_points
    (JSON_stringify_points : list HistoricalPoint -> string)
    (JSON_parse_points : string -> option (list HistoricalPoint))
    (net : Network) (now : Z) (w : World) :
  cache_valid (localStorage w !! "knotsgoup_snapshots")
    (localStorage w !! "knotsgoup_snapshots_timestamp") now
    fetchHistoricalData_CACHE_DURATION = false ->
  fst (fetchHistoricalData_try JSON_stringify_points JSON_parse_points net now w)
    = Normal tt ->
  let w' := fetchHistoricalData JSON_stringify_points JSON_parse_points net now w in
  exists pages points,
    listing_pages net (requests w') = listing_pages net (requests w) ++ pages
    /\ Forall2 (point_from net) points
         (fst (filter_snapshots None (concat (map results pages))))
    /\ Permutation (historicalData (app w')) points
    /\ snapshot_fetches w'
       = (snapshot_fetches w + length (historicalData (app w')))%nat.
Proof.
  intros Hvalid. unfold fetchHistoricalData.
  rewrite fetchHistoricalData_try_run. cbv zeta. rewrite Hvalid.
  destruct (pages_loop net (Z.to_nat MAX_API_CALLS) loop_start
              (with_app (setIsLoadingHistorical true) w))
    as [[h| |] w1] eqn:Hrun; try discriminate.
  intros _. apply pages_loop_trace in Hrun
    as (pages & points & Hpages & _ & _ & _ & Hh & Hfrom & Hcount).
  cbn [loop_start loop_historicalData lastTimestamp app] in Hh, Hfrom.
  subst h. exists pages, points. cbn.
  split; [exact Hpages|]. split; [exact Hfrom|].
  split; [apply sort_Permutation|].
  rewrite sort_length. exact Hcount.
Qed.

Lemma fetchHistoricalData_points_witness :
  let w' := fetchHistoricalData Json.stringify_points Json.parse_points
              Examples.two_pages 1700000000000 Examples.emptyWorld in
  snapshot_fetches w' = length (historicalData (app w')).
Proof.
  destruct (fetchHistoricalData_points Json.stringify_points Json.parse_points
              Examples.two_pages 1700000000000 Examples.emptyWorld)
    as (pages & points & _ & _ & _ & Hcount); [reflexivity|reflexivity|].
  exact Hcount.
Defined.

(** X4. The pages that a run asks for: the first page of the listing, then the
    address that each page names as its next; it asks for at least one page
    and at most 12, and it stops before 12 only at a page that names no
    next. *)
Theorem fetchHistoricalData_follows_next
    (JSON_stringify_points : list HistoricalPoint -> string)
    (JSON_parse_points : string -> option (list HistoricalPoint))
    (net : Network) (now : Z) (w : World) :
  cache_valid (localStorage w !! "knotsgoup_snapshots")
    (localStorage w !! "knotsgoup_snapshots_timestamp") now
    fetchHistoricalData_CACHE_DURATION = false ->
  fst (fetchHistoricalData_try JSON_stringify_points JSON_parse_points net now w)
    = Normal tt ->
  let w' := fetchHistoricalData JSON_stringify_points JSON_parse_points net now w in
  let first := Some "https://bitnodes.io/api/v1/snapshots/" in
  exists pages,
    listing_pages net (requests w') = listing_pages net (requests w) ++ pages
    /\ listing_urls (requests w')
       = listing_urls (requests w) ++ followed first pages
    /\ (1 <= length pages <= 12)%nat
    /\ (length pages = 12%nat
        \/ JsString.truthy (next_after first pages) = false).
Proof.
  intros Hvalid. unfold fetchHistoricalData.
  rewrite fetchHistoricalData_try_run. cbv zeta. rewrite Hvalid.
  destruct (pages_loop net (Z.to_nat MAX_API_CALLS) loop_start
              (with_app (setIsLoadingHistorical true) w))
    as [[h| |] w1] eqn:Hrun; try discriminate.
  intros _. apply pages_loop_trace in Hrun
    as (pages & points & Hpages & Hurls & Hlen & Hstop & _).
  cbn [loop_start nextUrl apiCallCount] in Hurls, Hstop.
  change (Z.to_nat MAX_API_CALLS) with 12%nat in Hlen.
  exists pages. cbn.
  split; [exact Hpages|]. split; [exact Hurls|].
  apply andb_false_iff in Hstop as [Hnext|Hcap].
  - split; [|right; exact Hnext].
    split; [|exact Hlen]. destruct pages; [discriminate Hnext|simpl; lia].
  - apply Z.ltb_ge in Hcap. unfold MAX_API_CALLS in Hcap.
    split; [lia|left; lia].
Qed.

Lemma fetchHistoricalData_follows_next_witness :
  let w' := fetchHistoricalData Json.stringify_points Json.parse_points
              Examples.two_pages 1700000000000 Examples.emptyWorld in
  exists pages,
    listing_urls (requests w')
    = followed (Some "https://bitnodes.io/api/v1/snapshots/") pages
    /\ (length pages = 12%nat
        \/ JsString.truthy
             (next_after (Some "https://bitnodes.io/api/v1/snapshots/") pages)
           = false).
Proof.
  destruct (fetchHistoricalData_follows_next Json.stringify_points
              Json.parse_points Examples.two_pages 1700000000000
              Examples.emptyWorld)
    as (pages & _ & Hurls & _ & Hstop); [reflexivity|reflexivity|].
  exists pages. split; [exact Hurls|exact Hstop].
Defined.

(** ** The two pipelines do not touch each other *)

(** X11. Whatever the network does, the Historical Backfill leaves alone what
    the Snapshot Fetcher shows and the keys of the cache other than its own
    two, and ends with its loading flag cleared. *)
Theorem fetchHistoricalData_keeps_to_itself
    (JSON_stringify_points : list HistoricalPoint -> string)
    (JSON_parse_points : string -> option (list HistoricalPoint))
    (net : Network) (now : Z) (w : World) :
  let w' := fetchHistoricalData JSON_stringify_points JSON_parse_points net now w in
  snapshot_side (app w') = snapshot_side (app w)
  /\ (forall k, k <> "knotsgoup_snapshots" ->
                k <> "knotsgoup_snapshots_timestamp" ->
                localStorage w' !! k = localStorage w !! k)
  /\ isLoadingHistorical (app w') = false.
Proof.
  unfold fetchHistoricalData. rewrite fetchHistoricalData_try_run. cbv zeta.
  destruct (cache_valid _ _ now fetchHistoricalData_CACHE_DURATION).
  - destruct (JSON_parse_points _); repeat split.
  - pose proof (pages_loop_untouched net (Z.to_nat MAX_API_CALLS) loop_start
                  (with_app (setIsLoadingHistorical true) w)) as Hloop.
    destruct Hloop as ((Happ & Hls) & _); [reflexivity|].
    destruct (pages_loop net (Z.to_nat MAX_API_CALLS) loop_start
                (with_app (setIsLoadingHistorical true) w)) as [[h| |] w1];
      cbn [snd] in Happ, Hls; cbn; rewrite ?Happ, ?Hls;
      (split; [reflexivity|]); (split; [|reflexivity]);
      intros k Hk1 Hk2; rewrite ?lookup_insert_ne by congruence; reflexivity.
Qed.

(** ** The Snapshot Fetcher *)

Section Fetcher.
Variable JSON_stringify_data : ApiResponse -> string.
Variable JSON_parse_data : string -> option Response.
Variable net : Network.

(** The body of the [try] of the Snapshot Fetcher, case by case. *)
Lemma fetchData_try_run (now : Z) (w : World) :
  let cachedData := localStorage w !! "nodeData" in
  let cachedTimestamp := localStorage w !! "nodeDataTimestamp" in
  let w0 := with_app (setIsLoading true) w in
  let latest := GetLatest "https://bitnodes.io/api/v1/snapshots/latest/" in
  let w1 :=
    {| app := app w0; localStorage := localStorage w0;
       requests := latest :: requests w |} in
  fetchData_try JSON_stringify_data JSON_parse_data net now w
  = if cache_valid cachedData cachedTimestamp now fetchData_CACHE_DURATION
    then
      match JSON_parse_data (default "" cachedData) with
      | Some parsedData =>
          (if is_snapshot_data parsedData then Normal tt else Throw,
           with_app (show_received parsedData) w0)
      | None => (Throw, w0)
      end
    else
      match net (latest :: requests w) with
      | Some (SnapshotData data) =>
          (Normal tt,
           with_snapshot (JSON_stringify_data data) now
             (with_app (show_snapshot data) w1))
      | Some data => (Throw, with_app (show_received data) w1)
      | None => (Throw, w1)
      end.
Proof.
  intros cachedData cachedTimestamp w0 latest w1.
  subst cachedData cachedTimestamp w0 latest w1.
  unfold fetchData_try, member_total_nodes, call_processNodeData, axios_get,
    with_app, with_snapshot, show_received, show_snapshot.
  unfold mbind, M_bind, setState, getItem, setItem, orThrow, mret, M_ret, throw.
  cbn [localStorage app requests].
  destruct (cache_valid _ _ now fetchData_CACHE_DURATION).
  - destruct (JSON_parse_data _) as [[page|data|other|]|]; reflexivity.
  - destruct (net _) as [[page|data|other|]|]; reflexivity.
Qed.
End Fetcher.

(** X12. Whatever the network and the cache hold, the Snapshot Fetcher makes at
    most one request, the one for the latest snapshot; it leaves alone what
    the Historical Backfill shows and the keys of the cache other than its
    own two; and it ends with its loading flag cleared. *)
Theorem fetchData_keeps_to_itself
    (JSON_stringify_data : ApiResponse -> string)
    (JSON_parse_data : string -> option Response)
    (net : Network) (now : Z) (w : World) :
  let w' := fetchData JSON_stringify_data JSON_parse_data net now w in
  (requests w' = requests w
   \/ requests w'
      = GetLatest "https://bitnodes.io/api/v1/snapshots/latest/" :: requests w)
  /\ historical_side (app w') = historical_side (app w)
  /\ (forall k, k <> "nodeData" -> k <> "nodeDataTimestamp" ->
                localStorage w' !! k = localStorage w !! k)
  /\ isLoading (app w') = false.
Proof.
  unfold fetchData. rewrite fetchData_try_run. cbv zeta.
  destruct (cache_valid _ _ now fetchData_CACHE_DURATION).
  - destruct (JSON_parse_data _) as [[page|data|other|]|]; cbn;
      (split; [left; reflexivity|]); repeat split.
  - destruct (net _) as [[page|data|other|]|]; cbn;
      (split; [right; reflexivity|]); (split; [reflexivity|]);
      (split; [|reflexivity]); intros k Hk1 Hk2;
      rewrite ?lookup_insert_ne by congruence; reflexivity.
Qed.

(** X13. A run of the Snapshot Fetcher that fetched the latest snapshot, and a
    second run within the 21 minutes that follow, on any network: the second
    makes no request and changes nothing; what is shown is the snapshot that
    the first run fetched. *)
Theorem fetchData_again
    (JSON_stringify_data : ApiResponse -> string)
    (JSON_parse_data : string -> option Response)
    (net net' : Network) (t1 t2 : Z) (w : World) (data : ApiResponse) :
  cache_valid (localStorage w !! "nodeData")
    (localStorage w !! "nodeDataTimestamp") t1 fetchData_CACHE_DURATION = false ->
  net (GetLatest "https://bitnodes.io/api/v1/snapshots/latest/" :: requests w)
    = Some (SnapshotData data) ->
  JSON_stringify_data data <> "" ->
  JSON_parse_data (JSON_stringify_data data) = Some (SnapshotData data) ->
  t2 - t1 < fetchData_CACHE_DURATION ->
  let w1 := fetchData JSON_stringify_data JSON_parse_data net t1 w in
  nodeData (app w1) = Some (SnapshotData data)
  /\ totalNodes (app w1) = Some (total_nodes data)
  /\ versionCounts (app w1) = counts (tally_nodes data)
  /\ fetchData JSON_stringify_data JSON_parse_data net' t2 w1 = w1.
Proof.
  intros Hstale Hnet Htext Hparse Hage w1.
  assert (w1 = with_app (setIsLoading false)
                 (with_snapshot (JSON_stringify_data data) t1
                    (with_app (show_snapshot data)
                       {| app := setIsLoading true (app w);
                          localStorage := localStorage w;
                          requests :=
                            GetLatest "https://bitnodes.io/api/v1/snapshots/latest/"
                            :: requests w |}))) as Hw1.
  { subst w1. unfold fetchData. rewrite fetchData_try_run. cbv zeta.
    rewrite Hstale, Hnet. reflexivity. }
  clearbody w1. subst w1.
  split; [reflexivity|]. split; [reflexivity|]. split; [reflexivity|].
  unfold fetchData. rewrite fetchData_try_run. cbv zeta.
  unfold with_app, with_snapshot. cbn [localStorage app requests].
  rewrite lookup_insert_ne, lookup_insert_eq, lookup_insert_eq by discriminate.
  rewrite cache_valid_stored by exact Htext.
  apply Z.ltb_lt in Hage. rewrite Hage.
  change (default "" (Some (JSON_stringify_data data)))
    with (JSON_stringify_data data).
  rewrite Hparse. reflexivity.
Qed.

Lemma fetchData_again_witness :
  let w1 := fetchData Examples.stringify_snapshot Examples.parse_snapshot
              Examples.latest 1700000000000 Examples.emptyWorld in
  nodeData (app w1) = Some (SnapshotData (Examples.snapshot_at 1700000000))
  /\ fetchData Examples.stringify_snapshot Examples.parse_snapshot
       Examples.down (1700000000000 + 1259999) w1 = w1.
Proof.
  destruct (fetchData_again Examples.stringify_snapshot Examples.parse_snapshot
              Examples.latest Examples.down 1700000000000
              (1700000000000 + 1259999) Examples.emptyWorld
              (Examples.snapshot_at 1700000000))
    as (Hdata & _ & _ & Hsame);
    [reflexivity|reflexivity|discriminate|reflexivity|reflexivity|].
  split; [exact Hdata|exact Hsame].
Defined.

(** X14. A failed run of the Snapshot Fetcher. When the cache is not used and
    the request is not answered, or the cache is used and its text does not
    parse, the body throws and what is shown of the last snapshot stays as
    it was. Whenever the body throws, the cache and the three counts stay
    as they were, and the loading flag is cleared all the same. An answer,
    or a cached value, without [nodes] makes the body throw only after that
    value and its [total_nodes] have replaced the snapshot and the total
    that were shown. *)
Theorem fetchData_failure_discards
    (JSON_stringify_data : ApiResponse -> string)
    (JSON_parse_data : string -> option Response)
    (net : Network) (now : Z) (w : World) :
  let cachedData := localStorage w !! "nodeData" in
  let cachedTimestamp := localStorage w !! "nodeDataTimestamp" in
  let latest := GetLatest "https://bitnodes.io/api/v1/snapshots/latest/" in
  let r := fetchData_try JSON_stringify_data JSON_parse_data net now w in
  let w' := fetchData JSON_stringify_data JSON_parse_data net now w in
  (cache_valid cachedData cachedTimestamp now fetchData_CACHE_DURATION = false ->
   net (latest :: requests w) = None ->
   fst r = Throw
   /\ (nodeData (app w'), totalNodes (app w')) = (nodeData (app w), totalNodes (app w)))
  /\ (cache_valid cachedData cachedTimestamp now fetchData_CACHE_DURATION = true ->
      JSON_parse_data (default "" cachedData) = None ->
      fst r = Throw
      /\ (nodeData (app w'), totalNodes (app w')) = (nodeData (app w), totalNodes (app w)))
  /\ (fst r = Throw ->
      localStorage w' = localStorage w
      /\ (versionCounts (app w'), knotsCount (app w'), otherCount (app w'))
         = (versionCounts (app w), knotsCount (app w), otherCount (app w))
      /\ isLoading (app w') = false)
  /\ (forall n,
        (cache_valid cachedData cachedTimestamp now fetchData_CACHE_DURATION = false
         /\ net (latest :: requests w) = Some (OtherData n))
        \/ (cache_valid cachedData cachedTimestamp now fetchData_CACHE_DURATION = true
            /\ JSON_parse_data (default "" cachedData) = Some (OtherData n)) ->
        fst r = Throw
        /\ nodeData (app w') = Some (OtherData n)
        /\ totalNodes (app w') = n).
Proof.
  unfold fetchData. rewrite fetchData_try_run. cbv zeta.
  destruct (cache_valid _ _ now fetchData_CACHE_DURATION).
  - split; [discriminate|]. split; [|split].
    + intros _ ->. split; reflexivity.
    + destruct (JSON_parse_data _) as [[page|data|other|]|];
        try discriminate; intros _; repeat split.
    + intros n [[Hstale _]|[_ ->]]; [discriminate|]. repeat split.
  - split; [|split; [discriminate|split]].
    + intros _ ->. split; reflexivity.
    + destruct (net _) as [[page|data|other|]|];
        try discriminate; intros _; repeat split.
    + intros n [[_ ->]|[Hfresh _]]; [|discriminate]. repeat split.
Qed.

Lemma fetchData_failure_discards_witness :
  let w := Examples.cachedWorld 1000 in
  let w' := fetchData Examples.stringify_snapshot Examples.parse_snapshot
              Examples.down 1700000000000 w in
  let w'' := fetchData Examples.stringify_snapshot Examples.parse_snapshot
               Examples.without_nodes 1700000000000 w in
  (localStorage w' = localStorage w /\ nodeData (app w') = nodeData (app w)
   /\ isLoading (app w') = false)
  /\ (localStorage w'' = localStorage w /\ nodeData (app w'') = Some (OtherData (Some 7))
      /\ totalNodes (app w'') = Some 7 /\ isLoading (app w'') = false).
Proof.
  split.
  - destruct (fetchData_failure_discards Examples.stringify_snapshot
                Examples.parse_snapshot Examples.down 1700000000000
                (Examples.cachedWorld 1000))
      as (Hunanswered & _ & Hdiscards & _).
    destruct Hunanswered as (Hthrows & Hshown); [reflexivity|reflexivity|].
    destruct (Hdiscards Hthrows) as (Hls & _ & Hloading).
    split; [exact Hls|]. split; [congruence|exact Hloading].
  - destruct (fetchData_failure_discards Examples.stringify_snapshot
                Examples.parse_snapshot Examples.without_nodes 1700000000000
                (Examples.cachedWorld 1000))
      as (_ & _ & Hdiscards & Hother).
    destruct (Hother (Some 7)) as (Hthrows & Hdata & Htotal);
      [left; split; reflexivity|].
    destruct (Hdiscards Hthrows) as (Hls & _ & Hloading).
    split; [exact Hls|]. split; [exact Hdata|]. split; [exact Htotal|exact Hloading].
Defined.

(** X10. A cache that cannot be used: when an item of the historical cache is
    missing or empty, or its timestamp does not start with a number, the
    Historical Backfill goes to the network and asks for the first page of
    the listing. *)
Theorem fetchHistoricalData_without_cache
    (JSON_stringify_points : list HistoricalPoint -> string)
    (JSON_parse_points : string -> option (list HistoricalPoint))
    (net : Network) (now : Z) (w : World) :
  JsString.truthy (localStorage w !! "knotsgoup_snapshots") = false
  \/ JsString.truthy (localStorage w !! "knotsgoup_snapshots_timestamp") = false
  \/ JsNumber.parseInt
       (default "" (localStorage w !! "knotsgoup_snapshots_timestamp")) = None ->
  exists new,
    requests (fetchHistoricalData JSON_stringify_points JSON_parse_points net now w)
    = new ++ GetListing "https://bitnodes.io/api/v1/snapshots/" :: requests w.
Proof.
  intros Hcache. unfold fetchHistoricalData.
  rewrite fetchHistoricalData_try_run. cbv zeta.
  assert (cache_valid (localStorage w !! "knotsgoup_snapshots")
            (localStorage w !! "knotsgoup_snapshots_timestamp") now
            fetchHistoricalData_CACHE_DURATION = false) as ->.
  { unfold cache_valid. destruct Hcache as [-> | [-> | ->]].
    - reflexivity.
    - now rewrite andb_false_r.
    - now rewrite andb_false_r. }
  destruct (pages_loop_first net 11 loop_start
              (with_app (setIsLoadingHistorical true) w) eq_refl) as (new & Hnew).
  exists new.
  change (Z.to_nat MAX_API_CALLS) with 12%nat.
  destruct (pages_loop net 12 loop_start _) as [[h| |] w1]; exact Hnew.
Qed.

Lemma fetchHistoricalData_without_cache_witness :
  exists new,
    requests (fetchHistoricalData Json.stringify_points Json.parse_points
                Examples.down 1700000000000 Examples.emptyWorld)
    = new ++ [GetListing "https://bitnodes.io/api/v1/snapshots/"].
Proof.
  apply (fetchHistoricalData_without_cache Json.stringify_points
           Json.parse_points Examples.down 1700000000000 Examples.emptyWorld).
  left. reflexivity.
Defined.

(** ** The keys of the version counts *)

Lemma keys_set {V : Type} (o : JsObject.t V) (k : string) (v : V) :
  map fst (JsObject.set o k v) = seen_add (map fst o) k.
Proof.
  unfold seen_add. induction o as [|[k0 v0] o IH]; [reflexivity|].
  cbn [JsObject.set map fst existsb]. rewrite (String.eqb_sym k k0).
  destruct (String.eqb k0 k); cbn [orb map fst]; [reflexivity|].
  rewrite IH. now destruct (existsb (String.eqb k) (map fst o)).
Qed.

Lemma seen_add_NoDup (seen : list string) (v : string) :
  NoDup seen -> NoDup (seen_add seen v).
Proof.
  intros Hseen. unfold seen_add.
  destruct (existsb (String.eqb v) seen) eqn:Hex; [exact Hseen|].
  apply NoDup_app. split; [exact Hseen|].
  split; [|apply NoDup_singleton].
  intros x Hx Hv. apply list_elem_of_In in Hx.
  apply list_elem_of_singleton in Hv. subst x.
  assert (existsb (String.eqb v) seen = true) as Htrue.
  { apply existsb_exists. exists v. split; [exact Hx|apply String.eqb_refl]. }
  congruence.
Qed.

Lemma fold_seen_add_NoDup (l seen : list string) :
  NoDup seen -> NoDup (fold_left seen_add l seen).
Proof.
  revert seen. induction l as [|v l IH]; intros seen Hseen; [exact Hseen|].
  apply IH, seen_add_NoDup, Hseen.
Qed.

Lemma fold_seen_add_length (l seen : list string) :
  (length (fold_left seen_add l seen) <= length seen + length l)%nat.
Proof.
  revert seen. induction l as [|v l IH]; intros seen; simpl; [lia|].
  specialize (IH (seen_add seen v)).
  assert (length (seen_add seen v) <= S (length seen))%nat as Hadd.
  { unfold seen_add. destruct (existsb (String.eqb v) seen); [lia|].
    rewrite length_app. simpl. lia. }
  lia.
Qed.

Lemma first_occurrences_snoc (l : list string) (v : string) :
  first_occurrences (l ++ [v]) = seen_add (first_occurrences l) v.
Proof. unfold first_occurrences. now rewrite fold_left_app. Qed.

Lemma records_of_snoc (version : string) (l : list NodeRecord) (node : NodeRecord) :
  records_of version (l ++ [node])
  = records_of version l + (if String.eqb (node_1 node) version then 1 else 0).
Proof.
  unfold records_of. rewrite List.filter_app, length_app. simpl.
  destruct (String.eqb (node_1 node) version); simpl; lia.
Qed.

Lemma records_of_nonneg (version : string) (l : list NodeRecord) :
  0 <= records_of version l.
Proof. unfold records_of. lia. Qed.

(** Reading after [o[k] = v]. *)
Lemma get_assign_other (o : JsObject.t JsValue.t) (k k' : string) (v : JsValue.t) :
  k <> k' ->
  JsObject.get (ObjectLiteral.assign o k v) k' = JsObject.get o k'.
Proof.
  intros Hne. unfold ObjectLiteral.assign.
  assert (JsObject.get (JsObject.set o k v) k' = JsObject.get o k') as Hset.
  { rewrite get_set. destruct (String.eqb_spec k k'); [contradiction|reflexivity]. }
  destruct (JsObject.get o k); [exact Hset|].
  destruct (String.eqb k "__proto__"); [reflexivity|exact Hset].
Qed.

Lemma get_assign_same (o : JsObject.t JsValue.t) (k : string) (v : JsValue.t) :
  String.eqb k "__proto__" = false ->
  JsObject.get (ObjectLiteral.assign o k v) k = Some v.
Proof.
  intros Hk. unfold ObjectLiteral.assign. rewrite Hk.
  destruct (JsObject.get o k); rewrite get_set, String.eqb_refl; reflexivity.
Qed.

(** The keys after [o[k] = v], on an object that has no property
    [__proto__] of its own. *)
Lemma keys_assign (o : JsObject.t JsValue.t) (k : string) (v : JsValue.t) :
  JsObject.get o "__proto__" = None ->
  map fst (ObjectLiteral.assign o k v)
  = if String.eqb k "__proto__" then map fst o else seen_add (map fst o) k.
Proof.
  intros Hproto. unfold ObjectLiteral.assign.
  destruct (String.eqb_spec k "__proto__") as [->|Hk].
  - now rewrite Hproto.
  - destruct (JsObject.get o k); apply keys_set.
Qed.

(** What the counts of the Aggregator hold after a list of records, and in
    which order its keys were created. *)
Lemma fold_tally_counts (records : list NodeRecord) :
  let table :=
    counts (fold_left tally_node records
              {| counts := []; knots := 0; others := 0 |}) in
  (forall version, JsObject.get table version = counted records version)
  /\ map fst table
     = first_occurrences
         (List.filter (fun version => negb (String.eqb version "__proto__"))
            (map node_1 records)).
Proof.
  induction records as [|node records IH] using rev_ind.
  - split; [|reflexivity]. intros version. unfold counted, records_of. simpl.
    now rewrite orb_true_r.
  - cbv zeta in IH |- *. destruct IH as [Hget Hkeys].
    rewrite fold_left_app. cbn [fold_left]. rewrite tally_node_counts.
    set (o := counts (fold_left tally_node records
                        {| counts := []; knots := 0; others := 0 |})) in *.
    set (v := node_1 node).
    assert (JsObject.get o "__proto__" = None) as Hproto
      by (rewrite Hget; reflexivity).
    split.
    + intros k. unfold counted. rewrite records_of_snoc. fold v.
      destruct (String.eqb_spec v k) as [<-|Hne].
      * destruct (String.eqb_spec v "__proto__") as [Hv|Hv].
        -- cbn [orb]. unfold ObjectLiteral.assign.
           rewrite Hv in *. rewrite Hproto. cbn. exact Hproto.
        -- cbn [orb].
           pose proof (records_of_nonneg v records) as Hn.
           destruct (Z.eqb_spec (records_of v records + 1) 0) as [|_]; [lia|].
           rewrite get_assign_same
             by (destruct (String.eqb_spec v "__proto__"); congruence).
           unfold ObjectLiteral.read. rewrite Hget. unfold counted.
           destruct (String.eqb_spec v "__proto__") as [|_]; [contradiction|].
           cbn [orb].
           destruct (Z.eqb_spec (records_of v records) 0) as [Hz|Hz].
           ++ rewrite Hz. destruct (ObjectLiteral.inherits v); reflexivity.
           ++ destruct (ObjectLiteral.inherits v); cbn.
              ** f_equal. f_equal.
                 now rewrite <- Z2Nat.inj_succ by exact Hn.
              ** destruct (Z.eqb_spec (records_of v records) 0);
                   [contradiction|reflexivity].
      * rewrite get_assign_other by exact Hne. rewrite Hget. unfold counted.
        now rewrite Z.add_0_r.
    + rewrite keys_assign by exact Hproto.
      rewrite map_app, List.filter_app. cbn [map List.filter]. fold v.
      destruct (String.eqb v "__proto__"); cbn [negb].
      * now rewrite app_nil_r.
      * now rewrite first_occurrences_snoc, Hkeys.
Qed.

(** X16. The object of counts that the Aggregator builds, from nothing,
    whatever the counts were before. Its keys are the distinct versions of
    the snapshot other than [__proto__], created in the order in which they
    first occur among the records, none twice. Under a version it holds the
    number of the records of that version: as a number, or, when the
    version names a function of [Object.prototype], as the text of that
    function followed by one character [1] for each record. It has at most
    as many keys as the snapshot has records. *)
Theorem processNodeData_versions (data : ApiResponse) (s : AppState) :
  let table := versionCounts (processNodeData data s) in
  let records := Object_values (nodes data) in
  map fst table
  = first_occurrences
      (List.filter (fun version => negb (String.eqb version "__proto__"))
         (map node_1 records))
  /\ NoDup (map fst table)
  /\ (forall version, JsObject.get table version = counted records version)
  /\ (length table <= length (nodes data))%nat.
Proof.
  cbn. unfold tally_nodes.
  destruct (fold_tally_counts (Object_values (nodes data))) as [Hget Hkeys].
  cbv zeta in Hget, Hkeys.
  split; [exact Hkeys|]. split; [|split; [exact Hget|]].
  - rewrite Hkeys. apply fold_seen_add_NoDup. constructor.
  - rewrite <- (length_map fst), Hkeys.
    pose proof (fold_seen_add_length
                  (List.filter (fun version => negb (String.eqb version "__proto__"))
                     (map node_1 (Object_values (nodes data)))) []) as Hlen.
    pose proof (List.filter_length_le
                  (fun version => negb (String.eqb version "__proto__"))
                  (map node_1 (Object_values (nodes data)))) as Hfilter.
    rewrite length_map, Object_values_length in Hfilter.
    unfold first_occurrences. simpl in Hlen. lia.
Qed.

(** ** The rows of the table *)

(** X17. The table shows the largest counts: its rows are, with their display
    names, the entries of a first part of the counts, of which every count
    is at least any count of the entries left out; and nothing is left out
    of 21 versions or fewer. *)
Theorem sortedVersions_keeps_largest (versionCounts : JsObject.t Z) :
  exists shown hidden,
    sortedVersions versionCounts
    = map (fun '(version, count) => (display_name version, count)) shown
    /\ Permutation (shown ++ hidden) (Object_entries versionCounts)
    /\ (forall r e, In r shown -> In e hidden -> snd e <= snd r)
    /\ ((length versionCounts <= 21)%nat -> hidden = []).
Proof.
  set (ranked := JsArray.sort (fun '(_, a) '(_, b) => b - a)
                   (Object_entries versionCounts)).
  exists (take 21 ranked), (drop 21 ranked).
  split; [reflexivity|]. rewrite take_drop.
  split; [apply sort_Permutation|]. split.
  - intros r e Hr He.
    assert (StronglySorted (key_le (fun e : string * Z => - snd e)) ranked)
      as Hsorted by apply sort_sorted, compare_counts_key.
    rewrite <- (take_drop 21 ranked) in Hsorted.
    apply StronglySorted_app in Hsorted as (Hcross & _ & _).
    specialize (Hcross r e). unfold key_le in Hcross.
    assert (- snd r <= - snd e) by (apply Hcross; now apply list_elem_of_In).
    lia.
  - intros Hlen. apply drop_ge. subst ranked.
    rewrite sort_length, Object_entries_length. exact Hlen.
Qed.

Lemma sortedVersions_keeps_largest_witness :
  let table := version_table (Object_values (nodes (Examples.snapshot_at 0))) in
  exists shown : list (string * Z),
    sortedVersions table
    = map (fun '(version, count) => (display_name version, count)) shown
    /\ Permutation shown (Object_entries table).
Proof.
  intros table.
  destruct (sortedVersions_keeps_largest table)
    as (shown & hidden & Hrows & Hperm & _ & Hall).
  assert (hidden = []) as Hnone by (apply Hall; vm_compute; lia).
  rewrite Hnone, app_nil_r in Hperm.
  exists shown. split; [exact Hrows|exact Hperm].
Defined.

(** ** The marker in the display name *)

Lemma includes_step (c : ascii) (s p : string) :
  JsString.includes (String c s) p
  = String.prefix p (String c s) || JsString.includes s p.
Proof.
  cbn [JsString.includes]. now destruct (String.prefix p (String c s)).
Qed.

Lemma prefix_split (p s : string) :
  String.prefix p s = true -> s = p +:+ JsString.skip (String.length p) s.
Proof.
  revert s. induction p as [|a p IH]; intros s; [reflexivity|].
  destruct s as [|b s]; [discriminate|]. cbn [String.prefix].
  destruct (ascii_dec a b) as [->|]; [|discriminate].
  intros H. change (String b s = String b (p +:+ JsString.skip (String.length p) s)).
  f_equal. now apply IH.
Qed.

Lemma replace_step (c : ascii) (s p : string) :
  JsString.replace (String c s) p ""
  = if String.prefix p (String c s)
    then JsString.skip (String.length p) (String c s)
    else String c (JsString.replace s p "").
Proof. reflexivity. Qed.

Lemma includes_of_prefix (s p : string) :
  String.prefix p s = true -> JsString.includes s p = true.
Proof. intros H. destruct s; cbn [JsString.includes]; now rewrite H. Qed.

Lemma replace_keeps_marker (s : string) :
  JsString.includes s "Knots" = true ->
  JsString.includes (JsString.replace s "/Satoshi:" "") "Knots" = true.
Proof.
  induction s as [|c s IH]; [discriminate|].
  rewrite replace_step.
  destruct (String.prefix "/Satoshi:" (String c s)) eqn:Hliteral.
  - apply prefix_split in Hliteral.
    set (rest := JsString.skip (String.length "/Satoshi:") (String c s))
      in Hliteral |- *.
    clearbody rest. rewrite Hliteral. intros H. exact H.
  - rewrite !includes_step. intros H.
    apply orb_true_iff in H as [Hmarker|Hrest].
    + apply prefix_split in Hmarker.
      set (rest := JsString.skip (String.length "Knots") (String c s)) in Hmarker.
      clearbody rest. injection Hmarker as -> ->.
      change (String "K" (JsString.replace ("nots" +:+ rest) "/Satoshi:" ""))
        with ("Knots" +:+ JsString.replace rest "/Satoshi:" "").
      now rewrite prefix_append.
    + rewrite (IH Hrest). apply orb_true_r.
Qed.

Lemma replace_trailing_slash_step (c c' : ascii) (s : string) :
  JsString.replace_trailing_slash (String c (String c' s))
  = String c (JsString.replace_trailing_slash (String c' s)).
Proof. reflexivity. Qed.

Lemma replace_trailing_slash_after (p : string) (c : ascii) (s : string) :
  JsString.replace_trailing_slash (p +:+ String c s)
  = p +:+ JsString.replace_trailing_slash (String c s).
Proof.
  induction p as [|a p IH]; [reflexivity|].
  change (String a p +:+ String c s) with (String a (p +:+ String c s)).
  destruct (p +:+ String c s) as [|b t] eqn:Hp.
  - destruct p; discriminate Hp.
  - rewrite replace_trailing_slash_step, IH. reflexivity.
Qed.

Lemma replace_trailing_slash_keeps_marker (s : string) :
  JsString.includes s "Knots" = true ->
  JsString.includes (JsString.replace_trailing_slash s) "Knots" = true.
Proof.
  induction s as [|c s IH]; [discriminate|].
  destruct s as [|c' s].
  - rewrite includes_step. cbn [String.prefix JsString.includes].
    destruct (ascii_dec "K" c); discriminate.
  - intros H. rewrite includes_step in H.
    apply orb_true_iff in H as [Hmarker|Hrest].
    + apply prefix_split in Hmarker.
      set (rest := JsString.skip (String.length "Knots")
                     (String c (String c' s))) in Hmarker.
      clearbody rest. rewrite Hmarker.
      destruct rest as [|c1 rest]; [reflexivity|].
      rewrite replace_trailing_slash_after.
      apply includes_of_prefix, prefix_append.
    + rewrite replace_trailing_slash_step, includes_step, (IH Hrest).
      apply orb_true_r.
Qed.

(** X18. A version that the Aggregator counts as a Knots node is shown as one: if
    the version contains [Knots], so does its display name, on which the
    table decides the colour of the row. *)
Theorem display_name_keeps_marker (version : string) :
  JsString.includes version "Knots" = true ->
  JsString.includes (display_name version) "Knots" = true.
Proof.
  intros H. unfold display_name.
  now apply replace_trailing_slash_keeps_marker, replace_keeps_marker.
Qed.

Lemma display_name_keeps_marker_witness :
  JsString.includes (display_name "/Satoshi:27.1.0/Knots:20240801/") "Knots"
  = true.
Proof.
  apply (display_name_keeps_marker "/Satoshi:27.1.0/Knots:20240801/").
  reflexivity.
Defined.

(** ** The first version of the component *)

Lemma fold_inline_tally (records : list NodeRecord) (t : Tally) :
  fold_left
    (fun '(counts, knots, others) node =>
       let version := node_1 node in
       let counts :=
         ObjectLiteral.assign counts version
           (JsValue.or_zero_plus_one (ObjectLiteral.read counts version)) in
       if JsString.includes version "Knots"
       then (counts, knots + 1, others)
       else (counts, knots, others + 1))
    records (counts t, knots t, others t)
  = (counts (fold_left tally_node records t),
     knots (fold_left tally_node records t),
     others (fold_left tally_node records t)).
Proof.
  revert t. induction records as [|node records IH]; intros t; [reflexivity|].
  cbn [fold_left]. rewrite <- IH. f_equal.
  unfold tally_node. now destruct (JsString.includes (node_1 node) "Knots").
Qed.

(** X19. The first version against the current one. Its [fetchData] always makes
    the one request for the latest snapshot and never touches the cache;
    answered with a snapshot, it shows what the current version shows of
    that snapshot, its aggregation in place giving what [processNodeData]
    gives; not answered, it shows what it showed. Its table has the rows of
    the current table, with the raw versions where the current one has
    display names. *)
Theorem first_version_agrees (net : Network) (w : World)
    (versionCounts : JsObject.t Z) :
  let latest := GetLatest "https://bitnodes.io/api/v1/snapshots/latest/" in
  let w' := FirstVersion.fetchData net w in
  requests w' = latest :: requests w
  /\ localStorage w' = localStorage w
  /\ (forall data, net (latest :: requests w) = Some (SnapshotData data) ->
        app w' = show_snapshot data (app w))
  /\ (net (latest :: requests w) = None -> app w' = app w)
  /\ sortedVersions versionCounts
     = map (fun '(version, count) => (display_name version, count))
         (FirstVersion.sortedVersions versionCounts).
Proof.
  cbv zeta.
  unfold FirstVersion.fetchData, FirstVersion.fetchData_try,
    member_total_nodes, axios_get.
  unfold mbind, M_bind, mret, M_ret, throw.
  destruct (net (GetLatest "https://bitnodes.io/api/v1/snapshots/latest/"
                 :: requests w)) as [[page|data|other|]|] eqn:Hnet;
    [repeat split; intros; discriminate| |
     repeat split; intros; discriminate..].
  - pose proof (fold_inline_tally (Object_values (nodes data))
                  {| counts := []; knots := 0; others := 0 |}) as Hfold.
    cbn [counts knots others] in Hfold. cbv zeta in Hfold |- *.
    cbn [setState].
    match goal with
    | |- context [fold_left ?f ?l ?a] =>
        destruct (fold_left f l a) as [[c k] o] eqn:Hf
    end.
    assert ((c, k, o)
            = (counts (tally_nodes data), knots (tally_nodes data),
               others (tally_nodes data))) as Heq
      by (rewrite <- Hf; exact Hfold).
    injection Heq as -> -> ->.
    split; [reflexivity|]. split; [reflexivity|].
    split; [|split; [discriminate|reflexivity]].
    intros data' Hdata. injection Hdata as <-. reflexivity.
Qed.

Lemma first_version_agrees_witness :
  app (FirstVersion.fetchData Examples.latest Examples.emptyWorld)
  = show_snapshot (Examples.snapshot_at 1700000000) initialState.
Proof.
  destruct (first_version_agrees Examples.latest Examples.emptyWorld [])
    as (_ & _ & Hshows & _).
  apply Hshows. reflexivity.
Defined.

(** ** Witnesses of the boundary and of the spacing *)

Lemma fetchHistoricalData_week_spaced_witness :
  week_spaced
    (historicalData
       (app (fetchHistoricalData Json.stringify_points Json.parse_points
               Examples.two_pages 1700000000000 Examples.emptyWorld))).
Proof.
  destruct (fetchHistoricalData_week_spaced Json.stringify_points
              Json.parse_points Examples.two_pages 1700000000000
              Examples.emptyWorld)
    as (pages & Hpages & Hspaced); [reflexivity|reflexivity|].
  vm_compute in Hpages. subst pages.
  apply Hspaced.
  - cbn. repeat (apply List.Forall_cons; [discriminate|]). apply List.Forall_nil.
  - cbn.
    repeat (apply SSorted_cons;
            [|repeat (apply List.Forall_cons; [lia|]); apply List.Forall_nil]).
    apply SSorted_nil.
Defined.

Lemma fetchHistoricalData_again_witness :
  let w1 := fetchHistoricalData Json.stringify_points Json.parse_points
              Examples.two_pages 1700000000000 Examples.emptyWorld in
  fetchHistoricalData Json.stringify_points Json.parse_points
    Examples.two_pages (1700000000000 + 86399999) w1 = w1.
Proof.
  apply (fetchHistoricalData_again Json.stringify_points Json.parse_points
           Examples.two_pages 1700000000000 (1700000000000 + 86399999)
           Examples.emptyWorld).
  - reflexivity.
  - reflexivity.
  - vm_compute. discriminate.
  - vm_compute. reflexivity.
  - reflexivity.
Defined.

Lemma fetchHistoricalData_stale_refetches_witness :
  exists new,
    requests (fetchHistoricalData Json.stringify_points Json.parse_points
                Examples.down (1000 + 86400000) (Examples.cachedWorld 1000))
    = new ++ [GetListing "https://bitnodes.io/api/v1/snapshots/"].
Proof.
  apply (fetchHistoricalData_stale_refetches Json.stringify_points
           Json.parse_points Examples.down (Examples.cachedWorld 1000)
           (Json.stringify_points Examples.cached_points) 1000 (1000 + 86400000)).
  - reflexivity.
  - reflexivity.
  - vm_compute. discriminate.
Defined.

Lemma fetchData_cache_boundary_witness :
  requests (fetchData Examples.stringify_snapshot Examples.parse_snapshot
              Examples.latest (1000 + 1259999) (Examples.snapshotWorld 1000))
  = []
  /\ requests (fetchData Examples.stringify_snapshot Examples.parse_snapshot
                 Examples.latest (1000 + 1260000) (Examples.snapshotWorld 1000))
     = [GetLatest "https://bitnodes.io/api/v1/snapshots/latest/"].
Proof.
  split.
  - destruct (fetchData_cache_boundary Examples.stringify_snapshot
                Examples.parse_snapshot Examples.latest
                (Examples.snapshotWorld 1000)
                (Examples.stringify_snapshot (Examples.snapshot_at 1700000000))
                (Examples.snapshot_at 1700000000) 1000 (1000 + 1259999))
      as (Hfresh & _); [reflexivity|reflexivity|discriminate|reflexivity|].
    apply Hfresh. reflexivity.
  - destruct (fetchData_cache_boundary Examples.stringify_snapshot
                Examples.parse_snapshot Examples.latest
                (Examples.snapshotWorld 1000)
                (Examples.stringify_snapshot (Examples.snapshot_at 1700000000))
                (Examples.snapshot_at 1700000000) 1000 (1000 + 1260000))
      as (_ & Hstale); [reflexivity|reflexivity|discriminate|reflexivity|].
    apply Hstale. discriminate.
Defined.
